(** * SecuML: classifier configurations

    A shallow embedding of [secuml/core/classif/conf/classifiers/__init__.py]:
    the paradigm classification [get_classifier_type], the factory
    [ClassifierConfFactory], the base configuration [ClassifierConf] and its
    three paradigm refinements, with the supervision extraction of each.

    Python objects are modelled as follows.
    - Scalars held in annotation arrays and in primitive attributes are
      [pyval]; every other object is a [pyobj].
    - Exceptions are values of [exn]; a computation that may raise returns
      a [result].
    - numpy arrays are mutable and shared: they live in a store ([heap]) and
      are passed by address; code that touches them runs in the monad [Py].
    - Classes are [type(name, bases, dict)] triples; attribute lookup follows
      the C3 method resolution order. *)

From Stdlib Require Import ZArith Lia Bool Ascii String.
From stdpp Require Import base option list strings pretty gmap.

Local Open Scope string_scope.
Local Open Scope Z_scope.
Local Open Scope list_scope.

(** ** Values and exceptions *)

(** Scalars: what an annotation array may hold, and the primitive
    attributes of a configuration. *)
Inductive pyval : Type :=
| PyNone
| PyBool (b : bool)
| PyInt (z : Z)
| PyStr (s : string).

(** Objects at large.  [ModelClass n] is a modelling-algorithm class, of
    which this module reads [__name__] only; [Ext id] is an object of a type
    defined elsewhere (a hyperparameter configuration, a logger). *)
Inductive pyobj : Type :=
| Val (v : pyval)
| ModelClass (name : string)
| Ext (id : N).

Inductive exn : Type :=
| KeyError (key : string)
| ValueError (msg : string)
| TypeError (msg : string)
| AttributeError (attr : string)
| OverflowError
| MissingAnnotations
| AtLeastTwoClasses
| InvalidAddress.  (* an address outside the store; no Python counterpart *)

Inductive result (A : Type) : Type :=
| Ok (a : A)
| Raise (e : exn).
Arguments Ok {A} a.
Arguments Raise {A} e.

#[global] Instance pyval_eq_dec : EqDecision pyval.
Proof. solve_decision. Defined.
#[global] Instance pyobj_eq_dec : EqDecision pyobj.
Proof. solve_decision. Defined.
#[global] Instance exn_eq_dec : EqDecision exn.
Proof. solve_decision. Defined.

Definition result_bind {A B} (m : result A) (k : A -> result B) : result B :=
  match m with
  | Ok a => k a
  | Raise e => Raise e
  end.

Declare Scope result_scope.
Delimit Scope result_scope with result.
Notation "x <- m ;; k" := (result_bind m (fun x => k))
  (at level 100, m at next level, right associativity) : result_scope.

(** [__str__] of the two exceptions this module defines. *)
Definition exn_str (e : exn) : option string :=
  match e with
  | AtLeastTwoClasses =>
      Some ("Supervised learning models require that the training dataset "
            +:+ "contains at least two classes.")
  | MissingAnnotations =>
      Some ("Supervised learning models require that all the training "
            +:+ "instances are annotated. ")
  | _ => None
  end.

(** Truth value of an object in a condition ([if self.multiclass:]). *)
Definition truthy (o : pyobj) : bool :=
  match o with
  | Val PyNone => false
  | Val (PyBool b) => b
  | Val (PyInt z) => negb (z =? 0)
  | Val (PyStr s) => negb (String.eqb s "")
  | ModelClass _ => true
  | Ext _ => true
  end.

(** Python's [==] on scalars: [bool] is a subtype of [int], so [True == 1]. *)
Definition py_num (v : pyval) : option Z :=
  match v with
  | PyBool b => Some (Z.b2z b)
  | PyInt z => Some z
  | _ => None
  end.

Definition py_eqb (a b : pyval) : bool :=
  match a, b with
  | PyNone, PyNone => true
  | PyStr s, PyStr t => String.eqb s t
  | _, _ =>
      match py_num a, py_num b with
      | Some x, Some y => x =? y
      | _, _ => false
      end
  end.

(** ** The store of arrays *)

Abbreviation loc := nat.
Abbreviation ndarray := (list pyval).
Abbreviation heap := (list (list pyval)).

(** Computations over the store that may raise.  The store is returned in
    both cases: an exception does not undo earlier writes. *)
Definition Py (A : Type) : Type := heap -> result A * heap.

Definition ret {A} (a : A) : Py A := fun h => (Ok a, h).
Definition throw {A} (e : exn) : Py A := fun h => (Raise e, h).
Definition bind {A B} (m : Py A) (k : A -> Py B) : Py B :=
  fun h => match m h with
           | (Ok a, h') => k a h'
           | (Raise e, h') => (Raise e, h')
           end.
Definition lift {A} (r : result A) : Py A := fun h => (r, h).

Declare Scope py_scope.
Delimit Scope py_scope with py.
Notation "x <- m ;; k" := (bind m (fun x => k))
  (at level 100, m at next level, right associativity) : py_scope.
Notation "m ;;; k" := (bind m (fun _ => k))
  (at level 100, right associativity) : py_scope.

Definition load (l : loc) : Py ndarray :=
  fun h => match h !! l with
           | Some a => (Ok a, h)
           | None => (Raise InvalidAddress, h)
           end.

(** A new array object. *)
Definition alloc (a : ndarray) : Py loc :=
  fun h => (Ok (length h), h ++ [a]).

(** Overwrite the array at [l], in place. *)
Definition store (l : loc) (a : ndarray) : Py unit :=
  fun h => match h !! l with
           | Some _ => (Ok tt, <[l := a]> h)
           | None => (Raise InvalidAddress, h)
           end.

(** ** numpy and builtins, as far as the module uses them *)

Section Numpy.

(** [int(s)] on a [str]: the parsed integer, [None] where Python raises
    [ValueError]. *)
Variable int_of_str : string -> option Z.

(** [int(v)], the element conversion of [astype('int')]. *)
Definition py_int (v : pyval) : result Z :=
  match v with
  | PyNone => Raise (TypeError "int() argument must not be 'NoneType'")
  | PyBool b => Ok (Z.b2z b)
  | PyInt z => Ok z
  | PyStr s =>
      match int_of_str s with
      | Some z => Ok z
      | None => Raise (ValueError "invalid literal for int() with base 10")
      end
  end.

(** numpy's [int] is the 64-bit signed integer. *)
Definition fits_int64 (z : Z) : bool :=
  (- 2 ^ 63 <=? z) && (z <? 2 ^ 63).

Definition to_int64 (v : pyval) : result pyval :=
  (z <- py_int v ;;
   if fits_int64 z then Ok (PyInt z) else Raise OverflowError)%result.

Fixpoint map_result {A B} (f : A -> result B) (l : list A) : result (list B) :=
  match l with
  | [] => Ok []
  | x :: xs => (y <- f x ;; ys <- map_result f xs ;; Ok (y :: ys))%result
  end.

(** [a.astype('int')]: a new array, or the first conversion error. *)
Definition astype_int (l : loc) : Py loc :=
  (a <- load l ;; b <- lift (map_result to_int64 a) ;; alloc b)%py.

End Numpy.

(** [str(v)], the element conversion of [astype('str')]. *)
Definition py_str (v : pyval) : string :=
  match v with
  | PyNone => "None"
  | PyBool true => "True"
  | PyBool false => "False"
  | PyInt z => pretty z
  | PyStr s => s
  end.

(** [a.astype('str')]: a new array; this conversion cannot fail. *)
Definition astype_str (l : loc) : Py loc :=
  (a <- load l ;; alloc (map (fun v => PyStr (py_str v)) a))%py.

(** [a != None] and [a == None], element by element. *)
Definition is_None (v : pyval) : bool :=
  match v with PyNone => true | _ => false end.
Definition ne_None (a : ndarray) : list bool := map (fun v => negb (is_None v)) a.
Definition eq_None (a : ndarray) : list bool := map is_None a.

Definition np_all (m : list bool) : bool := forallb id m.

(** [set(a)]: one representative of each class of [==] among the elements
    of [a]; the module takes its length only. *)
Fixpoint py_set (a : list pyval) : list pyval :=
  match a with
  | [] => []
  | x :: xs =>
      let s := py_set xs in
      if existsb (py_eqb x) s then s else x :: s
  end.

(** [deepcopy(a)]: a new array with the same scalars. *)
Definition deepcopy (l : loc) : Py loc :=
  (a <- load l ;; alloc a)%py.

(** [a[mask] = v], in place. *)
Fixpoint putmask (a : ndarray) (mask : list bool) (v : pyval) : ndarray :=
  match a, mask with
  | x :: xs, m :: ms => (if m then v else x) :: putmask xs ms v
  | _, _ => a
  end.

Definition setitem_mask (l : loc) (mask : list bool) (v : pyval) : Py unit :=
  (a <- load l ;; store l (putmask a mask v))%py.

(** ** Classes

    A class is what [type(name, bases, dict)] builds.  Its namespace maps an
    attribute name to a function object: [Src o] is the function of that
    name written in class [o] of this module, [Returns v] a method that takes
    no argument besides [self] and returns [v] (how a leaf supplies the
    abstract operations), [LeafFromJson] and [LeafFromArgs] the static
    constructors a leaf supplies. *)

Inductive owner : Type :=
| In_Conf
| In_ClassifierConf
| In_SupervisedClassifierConf
| In_UnsupervisedClassifierConf
| In_SemiSupervisedClassifierConf.

Inductive pyfunc : Type :=
| Src (o : owner)
| Returns (v : pyobj)
| LeafFromJson
| LeafFromArgs.

#[local] Unset Elimination Schemes.
Inductive pyclass : Type :=
| PyClass (name : string) (bases : list pyclass) (dict : list (string * pyfunc)).
#[local] Set Elimination Schemes.

(** Induction on a class, with the property known of its bases. *)
Section pyclass_induction.
Variable P : pyclass -> Prop.
Hypothesis step : forall n bs d, Forall P bs -> P (PyClass n bs d).

Fixpoint pyclass_ind (c : pyclass) : P c :=
  match c with
  | PyClass n bs d =>
      step n bs d
        ((fix all (l : list pyclass) : Forall P l :=
            match l with
            | [] => List.Forall_nil P
            | x :: xs => List.Forall_cons P x xs (pyclass_ind x) (all xs)
            end) bs)
  end.
End pyclass_induction.

Definition class_name (c : pyclass) : string :=
  match c with PyClass n _ _ => n end.
Definition class_bases (c : pyclass) : list pyclass :=
  match c with PyClass _ bs _ => bs end.
Definition class_dict (c : pyclass) : list (string * pyfunc) :=
  match c with PyClass _ _ d => d end.

#[global] Instance owner_eq_dec : EqDecision owner.
Proof. solve_decision. Defined.
#[global] Instance pyfunc_eq_dec : EqDecision pyfunc.
Proof. solve_decision. Defined.

(** Identity of classes: same name, same bases, same namespace. *)
Fixpoint pyclass_eqb (a b : pyclass) : bool :=
  match a, b with
  | PyClass n1 bs1 d1, PyClass n2 bs2 d2 =>
      bool_decide (n1 = n2) && bool_decide (d1 = d2) &&
      (fix all2 (xs ys : list pyclass) : bool :=
         match xs, ys with
         | [], [] => true
         | x :: xs', y :: ys' => pyclass_eqb x y && all2 xs' ys'
         | _, _ => false
         end) bs1 bs2
  end.

(** [issubclass(c, x)]: [c] is [x] or derives from it. *)
Fixpoint issubclass (c x : pyclass) : bool :=
  pyclass_eqb c x ||
  match c with
  | PyClass _ bases _ =>
      (fix any (bs : list pyclass) : bool :=
         match bs with
         | [] => false
         | b :: bs' => issubclass b x || any bs'
         end) bases
  end.

(** *** Method resolution order (C3 linearisation) *)

Definition in_tail (c : pyclass) (s : list pyclass) : bool :=
  match s with
  | [] => false
  | _ :: t => existsb (pyclass_eqb c) t
  end.

(** The first head that occurs in no tail. *)
Fixpoint c3_head (cands seqs : list (list pyclass)) : option pyclass :=
  match cands with
  | [] => None
  | [] :: rest => c3_head rest seqs
  | (h :: _) :: rest =>
      if existsb (in_tail h) seqs then c3_head rest seqs else Some h
  end.

Definition c3_drop (h : pyclass) (s : list pyclass) : list pyclass :=
  match s with
  | x :: t => if pyclass_eqb x h then t else s
  | [] => []
  end.

Definition nonempty {A} (l : list A) : bool :=
  match l with [] => false | _ => true end.

Fixpoint c3_merge (fuel : nat) (seqs : list (list pyclass))
  : option (list pyclass) :=
  match List.filter nonempty seqs with
  | [] => Some []
  | live =>
      match fuel with
      | O => None
      | S fuel' =>
          match c3_head live live with
          | None => None   (* inconsistent hierarchy: Python refuses the class *)
          | Some h =>
              match c3_merge fuel' (map (c3_drop h) live) with
              | Some r => Some (h :: r)
              | None => None
              end
          end
      end
  end.

Fixpoint mro (c : pyclass) : option (list pyclass) :=
  match c with
  | PyClass _ bases _ =>
      match (fix each (bs : list pyclass) : option (list (list pyclass)) :=
               match bs with
               | [] => Some []
               | b :: bs' =>
                   match mro b, each bs' with
                   | Some m, Some ms => Some (m :: ms)
                   | _, _ => None
                   end
               end) bases with
      | Some ms =>
          let seqs := ms ++ [bases] in
          match c3_merge (S (length (concat seqs))) seqs with
          | Some r => Some (c :: r)
          | None => None
          end
      | None => None
      end
  end.

Fixpoint dict_lookup {A} (k : string) (d : list (string * A)) : option A :=
  match d with
  | [] => None
  | (k', v) :: d' => if bool_decide (k = k') then Some v else dict_lookup k d'
  end.

(** [getattr(c, attr)] for what class namespaces hold: the first class of
    the resolution order that defines [attr]. *)
Fixpoint find_attr (attr : string) (cs : list pyclass) : option pyfunc :=
  match cs with
  | [] => None
  | c :: cs' =>
      match dict_lookup attr (class_dict c) with
      | Some f => Some f
      | None => find_attr attr cs'
      end
  end.

Definition class_getattr (c : pyclass) (attr : string) : option pyfunc :=
  match mro c with
  | Some cs => find_attr attr cs
  | None => None
  end.

(** *** The classes of the module *)

Definition src (o : owner) (names : list string) : list (string * pyfunc) :=
  map (fun n => (n, Src o)) names.

(** [secuml.core.conf.Conf], the root of all configurations.  The module
    calls its [__init__] only. *)
Definition Conf : pyclass :=
  PyClass "Conf" [] (src In_Conf ["__init__"]).

Definition ClassifierConf : pyclass :=
  PyClass "ClassifierConf" [Conf]
    (src In_ClassifierConf
       ["__init__"; "get_exp_name"; "_set_characteristics";
        "_get_model_class"; "_check_hyper_args"; "_set_model_class";
        "fields_to_export"; "is_probabilist"; "scoring_function";
        "get_feature_importance"; "is_interpretable";
        "interpretable_predictions"; "get_coefs"; "get_supervision"]).

Definition SupervisedClassifierConf : pyclass :=
  PyClass "SupervisedClassifierConf" [ClassifierConf]
    (src In_SupervisedClassifierConf
       ["__init__"; "gen_parser"; "get_supervision"]).

Definition UnsupervisedClassifierConf : pyclass :=
  PyClass "UnsupervisedClassifierConf" [ClassifierConf]
    (src In_UnsupervisedClassifierConf
       ["__init__"; "scoring_function"; "gen_parser"; "supervision"]).

Definition SemiSupervisedClassifierConf : pyclass :=
  PyClass "SemiSupervisedClassifierConf" [ClassifierConf]
    (src In_SemiSupervisedClassifierConf
       ["__init__"; "gen_parser"; "get_supervision"]).

(** ** Paradigm classification *)

Inductive ClassifierType : Type :=
| unsupervised
| semisupervised
| supervised.

#[global] Instance ClassifierType_eq_dec : EqDecision ClassifierType.
Proof. solve_decision. Defined.

(** The value of the enumeration member. *)
Definition ClassifierType_value (t : ClassifierType) : Z :=
  match t with
  | unsupervised => 1
  | semisupervised => 2
  | supervised => 3
  end.

(** The result is [None] for a classifier configuration of no paradigm. *)
Definition get_classifier_type (class_ : pyclass)
  : result (option ClassifierType) :=
  if issubclass class_ UnsupervisedClassifierConf then
    Ok (Some unsupervised)
  else if issubclass class_ SemiSupervisedClassifierConf then
    Ok (Some semisupervised)
  else if issubclass class_ SupervisedClassifierConf then
    Ok (Some supervised)
  else if issubclass class_ ClassifierConf then
    Ok None
  else
    Raise (ValueError (class_name class_ +:+ " is not a classifier configuration.")).


(** ** Configuration objects

    An object is its class and its attribute dictionary. *)

Record pyinst : Type := {
  inst_class : pyclass;
  inst_dict : gmap string pyobj
}.

Definition getattr (self : pyinst) (attr : string) : result pyobj :=
  match inst_dict self !! attr with
  | Some v => Ok v
  | None => Raise (AttributeError attr)
  end.

Definition setattr (self : pyinst) (attr : string) (v : pyobj) : pyinst :=
  {| inst_class := inst_class self; inst_dict := <[attr := v]> (inst_dict self) |}.

(** The function that [self.attr] is bound to. *)
Definition bound (self : pyinst) (attr : string) : result pyfunc :=
  match class_getattr (inst_class self) attr with
  | Some f => Ok f
  | None => Raise (AttributeError attr)
  end.

(** [o.__name__] *)
Definition name_of (o : pyobj) : result string :=
  match o with
  | ModelClass n => Ok n
  | _ => Raise (AttributeError "__name__")
  end.

(** The arity errors of a call, [self] counted as the interpreter counts it. *)
Definition too_many_args (takes given : nat) : exn :=
  TypeError ("__init__() takes " +:+ pretty takes +:+
             " positional arguments but " +:+ pretty given +:+ " were given").
Definition missing_args : exn :=
  TypeError "__init__() missing required positional arguments".

(** [self.attr()] for the operations a leaf must supply:
    [_get_model_class], [is_probabilist], [scoring_function],
    [get_feature_importance].  The stubs of [ClassifierConf] are a bare
    [return]; [UnsupervisedClassifierConf.scoring_function] returns [None]. *)
Definition abstract_operations : list string :=
  ["_get_model_class"; "is_probabilist"; "scoring_function";
   "get_feature_importance"].

Definition call_abstract (self : pyinst) (attr : string) : result pyobj :=
  (f <- bound self attr ;;
   match f with
   | Returns v => Ok v
   | Src In_ClassifierConf =>
       if bool_decide (attr ∈ abstract_operations) then Ok (Val PyNone)
       else Raise (TypeError (attr +:+ "() is not callable without arguments"))
   | Src In_UnsupervisedClassifierConf =>
       if bool_decide (attr = "scoring_function") then Ok (Val PyNone)
       else Raise (TypeError (attr +:+ "() is not callable without arguments"))
   | _ => Raise (TypeError (attr +:+ "() is not callable without arguments"))
   end)%result.

(** [Conf.__init__(self, logger)] is defined in [secuml.core.conf]; it is
    taken to record the logger. *)
Definition Conf__init__ (self : pyinst) (logger : pyobj) : result pyinst :=
  Ok (setattr self "logger" logger).

Definition ClassifierConf__set_model_class (self : pyinst) : result pyinst :=
  (m <- call_abstract self "_get_model_class" ;;
   let self := setattr self "model_class" m in
   m <- getattr self "model_class" ;;
   n <- name_of m ;;
   Ok (setattr self "model_class_name" (Val (PyStr n))))%result.

(** [self._set_model_class()] *)
Definition call__set_model_class (self : pyinst) : result pyinst :=
  (f <- bound self "_set_model_class" ;;
   match f with
   | Src In_ClassifierConf => ClassifierConf__set_model_class self
   | Returns _ => Ok self
   | _ => Raise (TypeError "_set_model_class() is not callable without arguments")
   end)%result.

Definition ClassifierConf__set_characteristics (self : pyinst) : result pyinst :=
  (p <- call_abstract self "is_probabilist" ;;
   let self := setattr self "probabilist" p in
   f <- call_abstract self "get_feature_importance" ;;
   let self := setattr self "feature_importance" f in
   call__set_model_class self)%result.

(** [self._set_characteristics()] *)
Definition call__set_characteristics (self : pyinst) : result pyinst :=
  (f <- bound self "_set_characteristics" ;;
   match f with
   | Src In_ClassifierConf => ClassifierConf__set_characteristics self
   | Returns _ => Ok self
   | _ => Raise (TypeError "_set_characteristics() is not callable without arguments")
   end)%result.

Definition ClassifierConf__init__ (self : pyinst)
    (multiclass hyperparam_conf logger : pyobj) : result pyinst :=
  (self <- Conf__init__ self logger ;;
   let self := setattr self "multiclass" multiclass in
   let self := setattr self "model_class" (Val PyNone) in
   let self := setattr self "hyperparam_conf" hyperparam_conf in
   let self := setattr self "accept_sparse" (Val (PyBool false)) in
   call__set_characteristics self)%result.

Definition SupervisedClassifierConf__init__ (self : pyinst)
    (multiclass hyperparam_conf logger : pyobj) : result pyinst :=
  ClassifierConf__init__ self multiclass hyperparam_conf logger.

Definition UnsupervisedClassifierConf__init__ (self : pyinst)
    (hyperparam_conf logger : pyobj) : result pyinst :=
  ClassifierConf__init__ self (Val (PyBool false)) hyperparam_conf logger.

Definition SemiSupervisedClassifierConf__init__ (self : pyinst)
    (multiclass hyperparam_conf logger : pyobj) : result pyinst :=
  ClassifierConf__init__ self multiclass hyperparam_conf logger.

(** [class_(args...)]: a new object, initialised by the [__init__] that the
    class resolves to.  Arguments are positional. *)
Definition construct (class_ : pyclass) (args : list pyobj) : result pyinst :=
  let self := {| inst_class := class_; inst_dict := ∅ |} in
  match class_getattr class_ "__init__" with
  | Some (Src In_Conf) =>
      match args with
      | [logger] => Conf__init__ self logger
      | [] => Raise missing_args
      | _ => Raise (too_many_args 2 (S (length args)))
      end
  | Some (Src In_ClassifierConf) =>
      match args with
      | [multiclass; hyperparam_conf; logger] =>
          ClassifierConf__init__ self multiclass hyperparam_conf logger
      | [] | [_] | [_; _] => Raise missing_args
      | _ => Raise (too_many_args 4 (S (length args)))
      end
  | Some (Src In_SupervisedClassifierConf) =>
      match args with
      | [multiclass; hyperparam_conf; logger] =>
          SupervisedClassifierConf__init__ self multiclass hyperparam_conf logger
      | [] | [_] | [_; _] => Raise missing_args
      | _ => Raise (too_many_args 4 (S (length args)))
      end
  | Some (Src In_UnsupervisedClassifierConf) =>
      match args with
      | [hyperparam_conf; logger] =>
          UnsupervisedClassifierConf__init__ self hyperparam_conf logger
      | [] | [_] => Raise missing_args
      | _ => Raise (too_many_args 3 (S (length args)))
      end
  | Some (Src In_SemiSupervisedClassifierConf) =>
      match args with
      | [multiclass; hyperparam_conf; logger] =>
          SemiSupervisedClassifierConf__init__ self multiclass hyperparam_conf logger
      | [] | [_] | [_; _] => Raise missing_args
      | _ => Raise (too_many_args 4 (S (length args)))
      end
  | Some (Returns (Val PyNone)) =>
      match args with
      | [] => Ok self
      | _ => Raise (too_many_args 1 (S (length args)))
      end
  | Some (Returns _) => Raise (TypeError "__init__() should return None")
  | Some LeafFromJson | Some LeafFromArgs => Raise missing_args
  | None =>   (* object.__init__ *)
      match args with
      | [] => Ok self
      | _ => Raise (TypeError "object() takes no arguments")
      end
  end.

(** ** Supervision extraction *)

(** The instances of a dataset and their annotations are defined elsewhere;
    the module uses [instances.get_annotations(ground_truth)] and
    [annotations.get_supervision(multiclass)].  Both are taken to return
    without raising, the second with the address of the label array that the
    annotations hold (the array itself, not a copy). *)
Record Annotations : Type := {
  Annotations_get_supervision : pyobj -> loc
}.
Record Instances : Type := {
  get_annotations : bool -> Annotations
}.

Section Supervision.

Variable int_of_str : string -> option Z.

Definition ClassifierConf_get_supervision (self : pyinst)
    (instances : Instances) (ground_truth check : bool) : Py loc :=
  (let annotations := get_annotations instances ground_truth in
   multiclass <- lift (getattr self "multiclass") ;;
   ret (Annotations_get_supervision annotations multiclass))%py.

Definition SupervisedClassifierConf_get_supervision (self : pyinst)
    (instances : Instances) (ground_truth check : bool) : Py loc :=
  (supervision <- ClassifierConf_get_supervision self instances
                    ground_truth check ;;
   a <- load supervision ;;
   (if negb (np_all (ne_None a)) then throw MissingAnnotations else ret tt) ;;;
   (if check then
      if (length (py_set a) <? 2)%nat then throw AtLeastTwoClasses
      else ret tt
    else ret tt) ;;;
   multiclass <- lift (getattr self "multiclass") ;;
   if truthy multiclass then astype_str supervision
   else astype_int int_of_str supervision)%py.

(** The result is [None] when no ground truth is asked for. *)
Definition UnsupervisedClassifierConf_supervision (self : pyinst)
    (instances : Instances) (ground_truth check : bool) : Py (option loc) :=
  (if negb ground_truth then ret None
   else
     supervision <- ClassifierConf_get_supervision self instances
                      ground_truth check ;;
     r <- astype_int int_of_str supervision ;;
     ret (Some r))%py.

(** -1 for unlabeled instances. *)
Definition SemiSupervisedClassifierConf_get_supervision (self : pyinst)
    (instances : Instances) (ground_truth check : bool) : Py loc :=
  (supervision <- ClassifierConf_get_supervision self instances
                    ground_truth check ;;
   supervision <- deepcopy supervision ;;
   a <- load supervision ;;
   let mask_unnanotated := eq_None a in
   setitem_mask supervision mask_unnanotated (PyInt (-1)) ;;;
   astype_int int_of_str supervision)%py.

(** [self.get_supervision(instances, ground_truth, check)]: the function
    the attribute resolves to, applied. *)
Definition call_get_supervision (self : pyinst)
    (instances : Instances) (ground_truth check : bool) : Py (option loc) :=
  (f <- lift (bound self "get_supervision") ;;
   match f with
   | Src In_ClassifierConf =>
       r <- ClassifierConf_get_supervision self instances ground_truth check ;;
       ret (Some r)
   | Src In_SupervisedClassifierConf =>
       r <- SupervisedClassifierConf_get_supervision self instances
              ground_truth check ;;
       ret (Some r)
   | Src In_SemiSupervisedClassifierConf =>
       r <- SemiSupervisedClassifierConf_get_supervision self instances
              ground_truth check ;;
       ret (Some r)
   | _ => throw (TypeError "get_supervision() takes 1 positional argument")
   end)%py.

(** [self.supervision(instances, ground_truth, check)] *)
Definition call_supervision (self : pyinst)
    (instances : Instances) (ground_truth check : bool) : Py (option loc) :=
  (f <- lift (bound self "supervision") ;;
   match f with
   | Src In_UnsupervisedClassifierConf =>
       UnsupervisedClassifierConf_supervision self instances ground_truth check
   | _ => throw (TypeError "supervision() takes 1 positional argument")
   end)%py.

End Supervision.

(** ** The factory *)

(** The registry of the factory: [self.methods], from the key under which a
    class was registered to the class. *)
Record ClassifierConfFactory : Type := {
  methods : gmap string pyclass
}.

(** A deserialised record, and the namespace of parsed arguments. *)
Abbreviation record := (gmap string pyobj).

Definition getitem (obj : record) (key : string) : result pyobj :=
  match obj !! key with
  | Some v => Ok v
  | None => Raise (KeyError key)
  end.

(** [self.methods[key]] *)
Definition methods_getitem (self : ClassifierConfFactory) (key : pyobj)
  : result pyclass :=
  match key with
  | Val (PyStr k) =>
      match methods self !! k with
      | Some c => Ok c
      | None => Raise (KeyError k)
      end
  | Val v => Raise (KeyError (py_str v))
  | ModelClass n => Raise (KeyError n)
  | Ext _ => Raise (KeyError "<object>")
  end.

(** [get_factory()], over the module-level variable
    [classifier_conf_factory]: the factory, and the new value of the
    variable. *)
Definition get_factory (classifier_conf_factory : option ClassifierConfFactory)
  : ClassifierConfFactory * option ClassifierConfFactory :=
  match classifier_conf_factory with
  | None =>
      let f := {| methods := ∅ |} in (f, Some f)
  | Some f => (f, Some f)
  end.

Inductive exportFieldMethod : Type :=
| primitive
| obj.

(** [ClassifierConf.fields_to_export] *)
Definition fields_to_export : list (string * exportFieldMethod) :=
  [("hyperparam_conf", obj);
   ("multiclass", primitive);
   ("probabilist", primitive);
   ("feature_importance", primitive);
   ("model_class_name", primitive)].

Section Factory.

(** The hyperparameter subsystem ([secuml.core.classif.conf.hyperparam]). *)
Variable HyperparamConf_from_args :
  record -> pyclass -> bool -> pyobj -> result pyobj.
Variable HyperparamConf_from_json :
  pyobj -> pyclass -> pyobj -> result pyobj.
Variable HyperparamConf_get_default :
  pyobj -> pyobj -> pyobj -> pyclass -> pyobj -> result pyobj.
(** [h.export()] of an exportable object [h]. *)
Variable export_obj : pyobj -> pyobj.

(** The generic factory ([secuml.core.conf.ConfFactory]). *)
Variable ConfFactory_get_methods : ClassifierConfFactory -> list string.
Variable ConfFactory_get_class :
  ClassifierConfFactory -> string -> result pyclass.

(** Modelled from the spec: the [from_args] that a leaf class supplies is
    not part of the module (section 4.2, "the resolved class's own
    fromArgs(args, hyperConf, logger) constructor").  It is taken to build
    the class from the [multiclass] argument, where the constructor has
    one, and the hyperparameters. *)
Definition Leaf_from_args (class_ : pyclass) (args : record)
    (hyper_conf logger : pyobj) : result pyinst :=
  match class_getattr class_ "__init__" with
  | Some (Src In_UnsupervisedClassifierConf) =>
      construct class_ [hyper_conf; logger]
  | _ =>
      (multiclass <- getitem args "multiclass" ;;
       construct class_ [multiclass; hyper_conf; logger])%result
  end.

(** Modelled from the spec: the [from_json] that a leaf class supplies is
    not part of the module (section 4.2, "the resolved class's
    fromJson(record["multiclass"], hyperConf, record, logger)").  It is
    taken to build the class from the flag, where the constructor has one,
    and the hyperparameters. *)
Definition Leaf_from_json (class_ : pyclass) (multiclass hyper_conf : pyobj)
    (obj : record) (logger : pyobj) : result pyinst :=
  match class_getattr class_ "__init__" with
  | Some (Src In_UnsupervisedClassifierConf) =>
      construct class_ [hyper_conf; logger]
  | _ => construct class_ [multiclass; hyper_conf; logger]
  end.

(** [class_.from_args] and [class_.from_json], the static methods. *)
Definition class_from_args (class_ : pyclass)
  : result (record -> pyobj -> pyobj -> result pyinst) :=
  match class_getattr class_ "from_args" with
  | Some LeafFromArgs => Ok (Leaf_from_args class_)
  | Some _ => Raise (TypeError "from_args() takes 1 positional argument")
  | None => Raise (AttributeError "from_args")
  end.

Definition class_from_json (class_ : pyclass)
  : result (pyobj -> pyobj -> record -> pyobj -> result pyinst) :=
  match class_getattr class_ "from_json" with
  | Some LeafFromJson => Ok (Leaf_from_json class_)
  | Some _ => Raise (TypeError "from_json() takes 1 positional argument")
  | None => Raise (AttributeError "from_json")
  end.

Definition from_args (self : ClassifierConfFactory) (method : string)
    (args : record) (logger : pyobj) : result pyinst :=
  (class_ <- methods_getitem self (Val (PyStr (method +:+ "Conf"))) ;;
   hyper_conf <-
     (if negb (String.eqb method "AlreadyTrained") then
        t <- get_classifier_type class_ ;;
        let is_supervised := bool_decide (t = Some supervised) in
        HyperparamConf_from_args args class_ is_supervised logger
      else Ok (Val PyNone)) ;;
   f <- class_from_args class_ ;;
   f args hyper_conf logger)%result.

Definition from_json (self : ClassifierConfFactory) (obj : record)
    (logger : pyobj) : result pyinst :=
  (type_ <- getitem obj "__type__" ;;
   class_ <- methods_getitem self type_ ;;
   hp <- getitem obj "hyperparam_conf" ;;
   hyper_conf <- HyperparamConf_from_json hp class_ logger ;;
   f <- class_from_json class_ ;;
   multiclass <- getitem obj "multiclass" ;;
   f multiclass hyper_conf obj logger)%result.

(** The list comprehension of [get_methods]: the first exception ends it. *)
Fixpoint filter_result {A} (p : A -> result bool) (l : list A) : result (list A) :=
  match l with
  | [] => Ok []
  | x :: xs =>
      (b <- p x ;;
       r <- filter_result p xs ;;
       Ok (if b : bool then x :: r else r))%result
  end.

Definition get_methods (self : ClassifierConfFactory)
    (classifier_type : option ClassifierType) : result (list string) :=
  let all_classifiers := ConfFactory_get_methods self in
  match classifier_type with
  | None => Ok all_classifiers
  | Some _ =>
      filter_result (fun c =>
                 class_ <- ConfFactory_get_class self c ;;
                 t <- get_classifier_type class_ ;;
                 Ok (bool_decide (t = classifier_type)))%result
              all_classifiers
  end.

(** The result, and the module-level variable after the call. *)
Definition get_default (classifier_conf_factory : option ClassifierConfFactory)
    (model_class : string) (num_folds n_jobs multiclass logger : pyobj)
  : result pyinst * option ClassifierConfFactory :=
  let (factory, classifier_conf_factory) := get_factory classifier_conf_factory in
  ((class_ <- ConfFactory_get_class factory model_class ;;
    hyper_conf <- HyperparamConf_get_default num_folds n_jobs multiclass
                    class_ logger ;;
    construct class_ [multiclass; hyper_conf; logger])%result,
   classifier_conf_factory).

(** Modelled from the spec: the generic exporter ([Conf.export]) is not
    part of the module.  By section 6 the record form carries the method
    identifier under [__type__], and the export representation has one
    entry per field of [fields_to_export]: the attribute itself for a
    primitive, its own export for a nested object. *)
Definition export_field (self : pyinst) (conf : result record)
    (field : string * exportFieldMethod) : result record :=
  (conf <- conf ;;
   v <- getattr self (fst field) ;;
   match snd field with
   | primitive => Ok (<[fst field := v]> conf)
   | obj => Ok (<[fst field := export_obj v]> conf)
   end)%result.

Definition export (self : pyinst) : result record :=
  fold_left (export_field self) fields_to_export
    (Ok {[ "__type__" := Val (PyStr (class_name (inst_class self))) ]}).

End Factory.

(** ** The other operations of [ClassifierConf] *)

(** [o == s] for a string literal [s]. *)
Definition eq_str (o : pyobj) (s : string) : bool :=
  match o with
  | Val (PyStr t) => String.eqb t s
  | _ => false
  end.

Definition ClassifierConf_get_exp_name (self : pyinst) : result pyobj :=
  (name <- getattr self "model_class_name" ;;
   multiclass <- getattr self "multiclass" ;;
   if truthy multiclass then
     match name with
     | Val (PyStr n) => Ok (Val (PyStr (n +:+ "__Multiclass")))
     | _ => Raise (TypeError "unsupported operand type(s) for +=")
     end
   else Ok name)%result.

Definition ClassifierConf_is_interpretable (self : pyinst) : result bool :=
  (feature_importance <- call_abstract self "get_feature_importance" ;;
   Ok (existsb (eq_str feature_importance) ["score"; "weight"]))%result.

Definition ClassifierConf_interpretable_predictions (self : pyinst)
  : result bool :=
  (feature_importance <- call_abstract self "get_feature_importance" ;;
   Ok (eq_str feature_importance "weight"))%result.

(** A trained model, of which the module reads [coef_] (one row of
    coefficients per class, or a single row) and [feature_importances_];
    [None] stands for an attribute the model does not have.  Coefficients
    are only handed on, so their type is left open. *)
Record Model (coef : Type) : Type := {
  coef_ : option (list (list coef));
  feature_importances_ : option (list coef)
}.
Arguments coef_ {coef} _.
Arguments feature_importances_ {coef} _.

Inductive coefs (coef : Type) : Type :=
| Matrix (m : list (list coef))
| Vector (v : list coef).
Arguments Matrix {coef} m.
Arguments Vector {coef} v.

(** What [get_coefs] may raise: an exception of [exn], or the [IndexError]
    of [coef_[0]] on a matrix without rows. *)
Inductive raised : Type :=
| Exn (e : exn)
| IndexError.

Definition ClassifierConf_get_coefs {coef : Type} (self : pyinst)
    (model : Model coef) : raised + option (coefs coef) :=
  match call_abstract self "get_feature_importance" with
  | Raise e => inl (Exn e)
  | Ok feature_importance =>
      if eq_str feature_importance "weight" then
        match getattr self "multiclass" with
        | Raise e => inl (Exn e)
        | Ok multiclass =>
            match coef_ model with
            | None => inl (Exn (AttributeError "coef_"))
            | Some m =>
                if truthy multiclass then inr (Some (Matrix m))
                else
                  match m with
                  | row :: _ => inr (Some (Vector row))
                  | [] => inl IndexError
                  end
            end
        end
      else if eq_str feature_importance "score" then
        match feature_importances_ model with
        | None => inl (Exn (AttributeError "feature_importances_"))
        | Some v => inr (Some (Vector v))
        end
      else inr None
  end.

(** *** Command-line parsers

    The parser is an [argparse] object; [add_argument] and the parser
    generation of the hyperparameter subsystem are operations defined
    elsewhere, which update the parser or raise. *)
Section Parsers.
Variable parser : Type.
(** [parser.add_argument(name, default=..., action=..., help=...)] *)
Variable add_argument :
  parser -> string -> pyobj -> string -> string -> result parser.
(** [HyperparamConf.gen_parser(parser, model_class, is_supervised)] *)
Variable HyperparamConf_gen_parser :
  parser -> pyobj -> bool -> result parser.

Definition multiclass_help : string :=
  "The classifier is trained on the families " +:+
  "instead of the binary labels.".

Definition SupervisedClassifierConf_gen_parser (p : parser)
    (model_class : pyobj) : result parser :=
  (p <- add_argument p "--multiclass" (Val (PyBool false)) "store_true"
          multiclass_help ;;
   HyperparamConf_gen_parser p model_class true)%result.

Definition UnsupervisedClassifierConf_gen_parser (p : parser)
    (model_class : pyobj) : result parser :=
  HyperparamConf_gen_parser p model_class false.

Definition SemiSupervisedClassifierConf_gen_parser (p : parser)
    (model_class : pyobj) (multiclass : bool) : result parser :=
  (p <- (if multiclass then
           add_argument p "--multiclass" (Val (PyBool false)) "store_true"
             multiclass_help
         else Ok p) ;;
   HyperparamConf_gen_parser p model_class false)%result.

(** [class_.gen_parser(parser, model_class)], with the default of the
    semi-supervised [multiclass] parameter. *)
Definition class_gen_parser (class_ : pyclass) (p : parser)
    (model_class : pyobj) : result parser :=
  match class_getattr class_ "gen_parser" with
  | Some (Src In_SupervisedClassifierConf) =>
      SupervisedClassifierConf_gen_parser p model_class
  | Some (Src In_UnsupervisedClassifierConf) =>
      UnsupervisedClassifierConf_gen_parser p model_class
  | Some (Src In_SemiSupervisedClassifierConf) =>
      SemiSupervisedClassifierConf_gen_parser p model_class true
  | Some _ => Raise (TypeError "gen_parser() takes 1 positional argument")
  | None => Raise (AttributeError "gen_parser")
  end.

End Parsers.

(** ** Vocabulary of the statements *)

(** The order of the tests of [get_classifier_type], in the words of the
    specification: unsupervised, then semi-supervised, then supervised, then
    the configuration base, which has no paradigm. *)
Definition paradigm_tests : list (pyclass * option ClassifierType) :=
  [(UnsupervisedClassifierConf, Some unsupervised);
   (SemiSupervisedClassifierConf, Some semisupervised);
   (SupervisedClassifierConf, Some supervised);
   (ClassifierConf, None)].

Definition first_derivation (class_ : pyclass)
  : option (pyclass * option ClassifierType) :=
  List.find (fun t => issubclass class_ (fst t)) paradigm_tests.

Definition classify_in_order (class_ : pyclass)
  : result (option ClassifierType) :=
  match first_derivation class_ with
  | Some (_, tag) => Ok tag
  | None =>
      Raise (ValueError
               (class_name class_ +:+ " is not a classifier configuration."))
  end.

(** [c] is [x], or one of its bases derives from [x]. *)
Inductive derives_from : pyclass -> pyclass -> Prop :=
| derives_self (c : pyclass) : derives_from c c
| derives_base (c b x : pyclass) :
    In b (class_bases c) -> derives_from b x -> derives_from c x.

(** A class of one of the three paradigms. *)
Definition paradigm_class (c : pyclass) : bool :=
  issubclass c UnsupervisedClassifierConf
  || issubclass c SemiSupervisedClassifierConf
  || issubclass c SupervisedClassifierConf.

(** The attributes of the module that a leaf leaves alone. *)
Definition inherited : list string :=
  ["__init__"; "_set_characteristics"; "_set_model_class";
   "get_supervision"; "supervision"].

(** A concrete leaf of [base]: a direct subclass that supplies the abstract
    operations (the scoring function may come from
    [UnsupervisedClassifierConf]) and overrides nothing of [inherited]. *)
Definition leaf_of (base c : pyclass) : bool :=
  match class_bases c with
  | [b] => pyclass_eqb b base
  | _ => false
  end
  && forallb (fun a => bool_decide (dict_lookup a (class_dict c) = None)) inherited
  && match dict_lookup "_get_model_class" (class_dict c) with
     | Some (Returns (ModelClass _)) => true
     | _ => false
     end
  && match dict_lookup "is_probabilist" (class_dict c) with
     | Some (Returns _) => true
     | _ => false
     end
  && match dict_lookup "get_feature_importance" (class_dict c) with
     | Some (Returns _) => true
     | _ => false
     end
  && match class_getattr c "scoring_function" with
     | Some (Returns _) | Some (Src In_UnsupervisedClassifierConf) => true
     | _ => false
     end.

(** The paradigm of the class that a method name resolves to, if any. *)
Definition paradigm_of (get_class : string -> result pyclass) (m : string)
  : option ClassifierType :=
  match get_class m with
  | Ok c =>
      match get_classifier_type c with
      | Ok t => t
      | Raise _ => None
      end
  | Raise _ => None
  end.

Definition module_classes : list pyclass :=
  [Conf; ClassifierConf; SupervisedClassifierConf;
   UnsupervisedClassifierConf; SemiSupervisedClassifierConf].


(** What [ClassifierConf.__init__] leaves in a new object of a leaf. *)
Definition initialised (c : pyclass) (multiclass hyperparam_conf logger : pyobj)
    (model : string) (probabilist importance : pyobj) : pyinst :=
  {| inst_class := c;
     inst_dict :=
       <["model_class_name" := Val (PyStr model)]>
       (<["model_class" := ModelClass model]>
       (<["feature_importance" := importance]>
       (<["probabilist" := probabilist]>
       (<["accept_sparse" := Val (PyBool false)]>
       (<["hyperparam_conf" := hyperparam_conf]>
       (<["model_class" := Val PyNone]>
       (<["multiclass" := multiclass]>
       (<["logger" := logger]> ∅)))))))) |}.


(** The leaf's implementation of an abstract operation. *)
Definition supplied (c : pyclass) (attr : string) : pyobj :=
  match dict_lookup attr (class_dict c) with
  | Some (Returns v) => v
  | _ => Val PyNone
  end.

Definition supplied_model (c : pyclass) : string :=
  match supplied c "_get_model_class" with
  | ModelClass m => m
  | _ => ""
  end.

Definition new (c : pyclass) (multiclass hyperparam_conf logger : pyobj) : pyinst :=
  initialised c multiclass hyperparam_conf logger (supplied_model c)
    (supplied c "is_probabilist") (supplied c "get_feature_importance").


(** The array that the semi-supervised extraction converts. *)
Definition sentinelled (a : ndarray) : ndarray :=
  putmask a (eq_None a) (PyInt (-1)).


(** Conversion errors are those of [int()] and of the 64-bit range. *)
Definition conversion_error (e : exn) : bool :=
  match e with
  | TypeError _ | ValueError _ | OverflowError => true
  | _ => false
  end.


(** The registered method names whose class has paradigm [t]. *)
Definition methods_of_paradigm
    (ConfFactory_get_methods : ClassifierConfFactory -> list string)
    (ConfFactory_get_class : ClassifierConfFactory -> string -> result pyclass)
    (self : ClassifierConfFactory) (t : ClassifierType) : list string :=
  List.filter
    (fun m => bool_decide (paradigm_of (ConfFactory_get_class self) m = Some t))
    (ConfFactory_get_methods self).


(** The record that [export] writes for a leaf configuration. *)
Definition exported (export_obj : pyobj -> pyobj) (c : pyclass)
    (multiclass hyperparam_conf : pyobj) : record :=
  <["model_class_name" := Val (PyStr (supplied_model c))]>
  (<["feature_importance" := supplied c "get_feature_importance"]>
  (<["probabilist" := supplied c "is_probabilist"]>
  (<["multiclass" := multiclass]>
  (<["hyperparam_conf" := export_obj hyperparam_conf]>
  {[ "__type__" := Val (PyStr (class_name c)) ]})))).

(** [s.endswith(suffix)] *)
(** [s] ends with [suffix]. *)
Fixpoint endswith (s suffix : string) : bool :=
  String.eqb s suffix ||
  match s with
  | EmptyString => false
  | String _ s' => endswith s' suffix
  end.

(** ** Sample leaves, dataset and registry for the examples *)

Definition leaf_dict (model : string) (probabilist : bool)
    (importance scoring : pyval) : list (string * pyfunc) :=
  [("_get_model_class", Returns (ModelClass model));
   ("is_probabilist", Returns (Val (PyBool probabilist)));
   ("scoring_function", Returns (Val scoring));
   ("get_feature_importance", Returns (Val importance));
   ("from_args", LeafFromArgs);
   ("from_json", LeafFromJson)].

Definition LogisticRegressionConf : pyclass :=
  PyClass "LogisticRegressionConf" [SupervisedClassifierConf]
    (leaf_dict "LogisticRegression" true (PyStr "weight") (PyStr "roc_auc")).

Definition LabelPropagationConf : pyclass :=
  PyClass "LabelPropagationConf" [SemiSupervisedClassifierConf]
    (leaf_dict "LabelPropagation" true PyNone (PyStr "roc_auc")).

Definition IsolationForestConf : pyclass :=
  PyClass "IsolationForestConf" [UnsupervisedClassifierConf]
    [("_get_model_class", Returns (ModelClass "IsolationForest"));
     ("is_probabilist", Returns (Val (PyBool false)));
     ("get_feature_importance", Returns (Val PyNone));
     ("from_args", LeafFromArgs);
     ("from_json", LeafFromJson)].

(** A class that claims two paradigms, in the "wrong" order. *)
Definition TwoParadigmsConf : pyclass :=
  PyClass "TwoParadigmsConf"
    [SupervisedClassifierConf; UnsupervisedClassifierConf] [].

(** A class outside the hierarchy. *)
Definition Unrelated : pyclass := PyClass "Unrelated" [] [].

(** [int(s)] on a string of ASCII characters: the blanks around the literal
    are dropped, a sign may come first, and the digits may be separated by
    single underscores. *)
Definition is_space (c : ascii) : bool :=
  let n := Z.of_N (Ascii.N_of_ascii c) in
  ((9 <=? n) && (n <=? 13)) || ((28 <=? n) && (n <=? 32)).

Fixpoint lstrip (s : string) : string :=
  match s with
  | String c s' => if is_space c then lstrip s' else s
  | EmptyString => EmptyString
  end.

Fixpoint rstrip (s : string) : string :=
  match s with
  | EmptyString => EmptyString
  | String c s' =>
      match rstrip s' with
      | EmptyString => if is_space c then EmptyString else String c EmptyString
      | r => String c r
      end
  end.

(** The digits after the sign; [after_digit] tells whether the previous
    character was a digit, which an underscore and the end both need. *)
Fixpoint decimal_digits (s : string) (acc : Z) (after_digit : bool)
  : option Z :=
  match s with
  | EmptyString => if after_digit then Some acc else None
  | String c s' =>
      let n := Z.of_N (Ascii.N_of_ascii c) in
      if (48 <=? n) && (n <=? 57) then
        decimal_digits s' (10 * acc + (n - 48)) true
      else if (n =? 95) && after_digit then decimal_digits s' acc false
      else None
  end.

Definition int_of_decimal (s : string) : option Z :=
  match rstrip (lstrip s) with
  | String "-"%char s' => Z.opp <$> decimal_digits s' 0 false
  | String "+"%char s' => decimal_digits s' 0 false
  | s' => decimal_digits s' 0 false
  end.

(** Instances whose working annotations hold the arrays at addresses 0
    (labels) and 1 (families), and whose ground truth holds those at 2 and
    3. *)
Definition sample_instances : Instances :=
  {| get_annotations := fun ground_truth =>
       {| Annotations_get_supervision := fun multiclass =>
            ((if ground_truth then 2 else 0) +
             (if truthy multiclass then 1 else 0))%nat |} |}.

Definition sample_registry : ClassifierConfFactory :=
  {| methods :=
       <["LogisticRegressionConf" := LogisticRegressionConf]>
       (<["LabelPropagationConf" := LabelPropagationConf]>
       (<["IsolationForestConf" := IsolationForestConf]> ∅)) |}.

(** A generic factory that lists the registered names without their [Conf]
    suffix and resolves a name by putting it back, as [from_args] does. *)
Definition sample_get_methods (f : ClassifierConfFactory) : list string :=
  ["LogisticRegression"; "LabelPropagation"; "IsolationForest"].
Definition sample_get_class (f : ClassifierConfFactory) (m : string)
  : result pyclass :=
  methods_getitem f (Val (PyStr (m +:+ "Conf"))).

(** A store with the four arrays of [sample_instances]; one working label is
    unset. *)
Definition sample_store : heap :=
  [ [PyBool true; PyNone; PyBool false];
    [PyStr "ransomware"; PyNone; PyStr "benign"];
    [PyBool true; PyBool true; PyBool false];
    [PyStr "ransomware"; PyStr "spyware"; PyStr "benign"] ].

Definition sample_supervised : pyinst :=
  new LogisticRegressionConf (Val (PyBool false)) (Ext 1) (Ext 2).
Definition sample_semisupervised : pyinst :=
  new LabelPropagationConf (Val (PyBool false)) (Ext 1) (Ext 2).
Definition sample_unsupervised : pyinst :=
  new IsolationForestConf (Val (PyBool false)) (Ext 1) (Ext 2).

Definition sample_hyper_from_json (hp : pyobj) (c : pyclass) (logger : pyobj)
  : result pyobj := Ok hp.
Definition sample_hyper_from_args (args : record) (c : pyclass)
    (is_supervised : bool) (logger : pyobj) : result pyobj := Ok (Ext 7).
Definition sample_hyper_get_default (num_folds n_jobs multiclass : pyobj)
    (c : pyclass) (logger : pyobj) : result pyobj := Ok (Ext 7).
Definition sample_export_obj (o : pyobj) : pyobj := o.

(** ** Classes: equality and resolution *)

Lemma pyclass_eqb_eq (a b : pyclass) : pyclass_eqb a b = true <-> a = b.
Proof.
  revert b. induction a as [n bs d IH] using pyclass_ind.
  intros [n' bs' d']. simpl.
  rewrite !andb_true_iff, !bool_decide_eq_true.
  assert (Hbs : forall ys,
    (fix all2 (xs ys : list pyclass) : bool :=
       match xs, ys with
       | [], [] => true
       | x :: xs', y :: ys' => pyclass_eqb x y && all2 xs' ys'
       | _, _ => false
       end) bs ys = true <-> bs = ys).
  { induction IH as [|x xs Hx _ IHxs]; intros [|y ys]; simpl;
      try (split; [discriminate | discriminate]); [tauto|].
    rewrite andb_true_iff, Hx, IHxs. split; [intros [-> ->]; reflexivity|].
    intros [= -> ->]. tauto. }
  rewrite Hbs. split; [intros [[-> ->] ->]; reflexivity|].
  intros [= -> -> ->]. tauto.
Qed.

Lemma pyclass_eqb_refl (a : pyclass) : pyclass_eqb a a = true.
Proof. apply pyclass_eqb_eq. reflexivity. Qed.

Lemma issubclass_refl (c : pyclass) : issubclass c c = true.
Proof. destruct c. cbn [issubclass]. rewrite pyclass_eqb_refl. reflexivity. Qed.

(** A direct subclass of a class of the module is resolved before it, and
    then as it. *)
Lemma mro_subclass (base : pyclass) (n : string) (d : list (string * pyfunc)) :
  In base module_classes ->
  mro (PyClass n [base] d) = (fun m => PyClass n [base] d :: m) <$> mro base.
Proof.
  unfold module_classes. simpl.
  intros [<-|[<-|[<-|[<-|[<-|[]]]]]]; vm_compute; reflexivity.
Qed.

Lemma class_getattr_subclass base n d attr :
  In base module_classes ->
  class_getattr (PyClass n [base] d) attr =
  match dict_lookup attr d with
  | Some f => Some f
  | None => class_getattr base attr
  end.
Proof.
  intros Hb. unfold class_getattr. rewrite (mro_subclass _ _ _ Hb).
  destruct (mro base) as [m|] eqn:E; simpl.
  - reflexivity.
  - exfalso. revert E. unfold module_classes in Hb. simpl in Hb.
    destruct Hb as [<-|[<-|[<-|[<-|[<-|[]]]]]]; vm_compute; discriminate.
Qed.

Lemma leaf_of_inv base c :
  leaf_of base c = true ->
  exists n d m p fi,
    c = PyClass n [base] d /\
    Forall (fun a => dict_lookup a d = None) inherited /\
    dict_lookup "_get_model_class" d = Some (Returns (ModelClass m)) /\
    dict_lookup "is_probabilist" d = Some (Returns p) /\
    dict_lookup "get_feature_importance" d = Some (Returns fi).
Proof.
  destruct c as [n bs d]. unfold leaf_of. cbn [class_bases class_dict].
  rewrite !andb_true_iff. intros [[[[[Hb Hi] Hm] Hp] Hf] _].
  destruct bs as [|b [|]]; try discriminate.
  apply pyclass_eqb_eq in Hb as ->.
  destruct (dict_lookup "_get_model_class" d) as [[| [] | |]|] eqn:Em;
    try discriminate.
  destruct (dict_lookup "is_probabilist" d) as [[| | |]|] eqn:Ep;
    try discriminate.
  destruct (dict_lookup "get_feature_importance" d) as [[| | |]|] eqn:Ef;
    try discriminate.
  exists n, d, name, v, v0.
  split; [reflexivity|]. split; [|repeat split; assumption].
  apply Forall_forall. intros a Ha.
  rewrite forallb_forall in Hi. apply list_elem_of_In in Ha. specialize (Hi a Ha).
  apply bool_decide_eq_true in Hi. exact Hi.
Qed.

Ltac inherited_attr :=
  unfold inherited; apply list_elem_of_In; cbn [In]; auto 10.

Ltac resolve_attr :=
  rewrite class_getattr_subclass by (unfold module_classes; simpl; tauto);
  match goal with
  | H : dict_lookup ?a ?d = _ |- context [dict_lookup ?a ?d] => rewrite H
  end.

Lemma ClassifierConf__init__leaf base n d m p fi self mc h lg :
  In base module_classes ->
  class_getattr base "_set_characteristics" = Some (Src In_ClassifierConf) ->
  class_getattr base "_set_model_class" = Some (Src In_ClassifierConf) ->
  Forall (fun a => dict_lookup a d = None) inherited ->
  dict_lookup "_get_model_class" d = Some (Returns (ModelClass m)) ->
  dict_lookup "is_probabilist" d = Some (Returns p) ->
  dict_lookup "get_feature_importance" d = Some (Returns fi) ->
  self = {| inst_class := PyClass n [base] d; inst_dict := ∅ |} ->
  ClassifierConf__init__ self mc h lg =
  Ok (initialised (PyClass n [base] d) mc h lg m p fi).
Proof.
  intros Hb Hsc Hsm Hi Hm Hp Hf ->.
  unfold inherited in Hi.
  repeat (apply Forall_cons in Hi as [? Hi]).
  unfold ClassifierConf__init__, Conf__init__. cbn [result_bind].
  unfold call__set_characteristics, bound, setattr. cbn [inst_class inst_dict].
  resolve_attr. rewrite Hsc. cbn [result_bind].
  unfold ClassifierConf__set_characteristics, call_abstract, bound, setattr.
  cbn [inst_class inst_dict].
  resolve_attr. cbn [result_bind]. resolve_attr. cbn [result_bind].
  unfold call__set_model_class, bound. cbn [inst_class inst_dict].
  resolve_attr. rewrite Hsm. cbn [result_bind].
  unfold ClassifierConf__set_model_class, call_abstract, bound, setattr, getattr.
  cbn [inst_class inst_dict].
  resolve_attr. cbn [result_bind].
  rewrite lookup_insert_eq. cbn [result_bind name_of]. reflexivity.
Qed.

Lemma load_hit (h : heap) (l : loc) (a : ndarray) :
  h !! l = Some a -> load l h = (Ok a, h).
Proof. intros H. unfold load. rewrite H. reflexivity. Qed.

Lemma load_miss (h : heap) (l : loc) :
  h !! l = None -> load l h = (Raise InvalidAddress, h).
Proof. intros H. unfold load. rewrite H. reflexivity. Qed.

Lemma lookup_new (h : heap) (a : ndarray) : (h ++ [a]) !! length h = Some a.
Proof. rewrite lookup_app_r by lia. rewrite Nat.sub_diag. reflexivity. Qed.

Lemma insert_new (h : heap) (a b : ndarray) :
  <[length h := b]> (h ++ [a]) = h ++ [b].
Proof. rewrite insert_app_r_alt by lia. rewrite Nat.sub_diag. reflexivity. Qed.

Section Extraction.
Variable int_of_str : string -> option Z.

Lemma ClassifierConf_get_supervision_run self inst gt check h mc :
  getattr self "multiclass" = Ok mc ->
  ClassifierConf_get_supervision self inst gt check h =
  (Ok (Annotations_get_supervision (get_annotations inst gt) mc), h).
Proof.
  intros H. unfold ClassifierConf_get_supervision, bind, lift, ret.
  rewrite H. reflexivity.
Qed.

Lemma SemiSupervisedClassifierConf_get_supervision_run
    self inst gt check h mc a :
  getattr self "multiclass" = Ok mc ->
  h !! Annotations_get_supervision (get_annotations inst gt) mc = Some a ->
  SemiSupervisedClassifierConf_get_supervision int_of_str self inst gt check h =
  match map_result (to_int64 int_of_str) (sentinelled a) with
  | Ok b => (Ok (S (length h)), h ++ [sentinelled a; b])
  | Raise e => (Raise e, h ++ [sentinelled a])
  end.
Proof.
  intros Hmc Ha. unfold SemiSupervisedClassifierConf_get_supervision.
  unfold bind at 1. rewrite (ClassifierConf_get_supervision_run _ _ _ _ _ _ Hmc).
  unfold deepcopy, bind at 1. unfold bind at 1. rewrite (load_hit _ _ _ Ha).
  unfold alloc at 1. unfold bind at 1. rewrite (load_hit _ _ _ (lookup_new h a)).
  unfold bind at 1. unfold setitem_mask, bind at 1.
  rewrite (load_hit _ _ _ (lookup_new h a)).
  unfold store. rewrite lookup_new, insert_new.
  unfold astype_int, bind at 1. fold (sentinelled a).
  rewrite (load_hit _ _ _ (lookup_new h _)).
  unfold bind, lift.
  destruct (map_result _ _) as [b|e]; [|reflexivity].
  unfold alloc. rewrite length_app. simpl length.
  rewrite Nat.add_1_r, <- app_assoc. reflexivity.
Qed.
End Extraction.

Lemma in_module_classes (base : pyclass) :
  In base [ClassifierConf; SupervisedClassifierConf;
           UnsupervisedClassifierConf; SemiSupervisedClassifierConf] ->
  In base module_classes /\
  class_getattr base "_set_characteristics" = Some (Src In_ClassifierConf) /\
  class_getattr base "_set_model_class" = Some (Src In_ClassifierConf).
Proof.
  simpl. intros [<-|[<-|[<-|[<-|[]]]]];
    (split; [unfold module_classes; simpl; tauto | split; vm_compute; reflexivity]).
Qed.

Lemma construct_leaf (base c : pyclass) (mc hp lg : pyobj) :
  leaf_of base c = true ->
  (base = SupervisedClassifierConf \/ base = SemiSupervisedClassifierConf ->
   construct c [mc; hp; lg] = Ok (new c mc hp lg)) /\
  (base = UnsupervisedClassifierConf ->
   construct c [hp; lg] = Ok (new c (Val (PyBool false)) hp lg) /\
   forall args self, construct c args = Ok self ->
     exists hp' lg', args = [hp'; lg'] /\ self = new c (Val (PyBool false)) hp' lg').
Proof.
  intros Hl. destruct (leaf_of_inv _ _ Hl) as (n & d & m & p & fi & -> & Hi & Hm & Hp & Hf).
  assert (Hinit : dict_lookup "__init__" d = None).
  { rewrite Forall_forall in Hi. apply Hi. inherited_attr. }
  assert (Hnew : forall mc hp lg, new (PyClass n [base] d) mc hp lg =
                   initialised (PyClass n [base] d) mc hp lg m p fi).
  { intros. unfold new, supplied_model, supplied. cbn [class_dict].
    rewrite Hm, Hp, Hf. reflexivity. }
  split.
  - intros Hb.
    assert (Hin : In base [ClassifierConf; SupervisedClassifierConf;
           UnsupervisedClassifierConf; SemiSupervisedClassifierConf])
      by (destruct Hb as [-> | ->]; simpl; tauto).
    destruct (in_module_classes _ Hin) as (Hmod & Hsc & Hsm).
    unfold construct. rewrite class_getattr_subclass, Hinit by exact Hmod.
    rewrite Hnew.
    destruct Hb as [-> | ->];
      (change (class_getattr _ "__init__") with (Some (Src In_SupervisedClassifierConf))
       || change (class_getattr _ "__init__") with (Some (Src In_SemiSupervisedClassifierConf)));
      cbv iota beta;
      unfold SupervisedClassifierConf__init__, SemiSupervisedClassifierConf__init__;
      eapply ClassifierConf__init__leaf; eauto.
  - intros ->.
    assert (Hin : In UnsupervisedClassifierConf [ClassifierConf; SupervisedClassifierConf;
           UnsupervisedClassifierConf; SemiSupervisedClassifierConf])
      by (simpl; tauto).
    destruct (in_module_classes _ Hin) as (Hmod & Hsc & Hsm).
    assert (H2 : forall hp lg, construct (PyClass n [UnsupervisedClassifierConf] d) [hp; lg]
                 = Ok (new (PyClass n [UnsupervisedClassifierConf] d) (Val (PyBool false)) hp lg)).
    { intros. unfold construct. rewrite class_getattr_subclass, Hinit by exact Hmod.
      rewrite Hnew.
      change (class_getattr _ "__init__") with (Some (Src In_UnsupervisedClassifierConf)).
      cbv iota beta. unfold UnsupervisedClassifierConf__init__.
      eapply ClassifierConf__init__leaf; eauto. }
    split; [apply H2|].
    intros args self. destruct args as [|x [|y [|z args]]].
    + unfold construct. rewrite class_getattr_subclass, Hinit by exact Hmod.
      change (class_getattr _ "__init__") with (Some (Src In_UnsupervisedClassifierConf)).
      discriminate.
    + unfold construct. rewrite class_getattr_subclass, Hinit by exact Hmod.
      change (class_getattr _ "__init__") with (Some (Src In_UnsupervisedClassifierConf)).
      discriminate.
    + rewrite H2. intros [= <-]. eauto.
    + unfold construct. rewrite class_getattr_subclass, Hinit by exact Hmod.
      change (class_getattr _ "__init__") with (Some (Src In_UnsupervisedClassifierConf)).
      discriminate.
Qed.

Lemma getattr_new c mc hp lg :
  getattr (new c mc hp lg) "multiclass" = Ok mc /\
  getattr (new c mc hp lg) "hyperparam_conf" = Ok hp /\
  getattr (new c mc hp lg) "model_class_name" = Ok (Val (PyStr (supplied_model c))) /\
  getattr (new c mc hp lg) "probabilist" = Ok (supplied c "is_probabilist") /\
  getattr (new c mc hp lg) "feature_importance" = Ok (supplied c "get_feature_importance") /\
  inst_class (new c mc hp lg) = c.
Proof. repeat split; reflexivity. Qed.

Lemma bound_get_supervision (base c : pyclass) (self : pyinst) :
  leaf_of base c = true ->
  inst_class self = c ->
  (base = SupervisedClassifierConf ->
   bound self "get_supervision" = Ok (Src In_SupervisedClassifierConf)) /\
  (base = SemiSupervisedClassifierConf ->
   bound self "get_supervision" = Ok (Src In_SemiSupervisedClassifierConf)) /\
  (base = UnsupervisedClassifierConf ->
   bound self "get_supervision" = Ok (Src In_ClassifierConf) /\
   bound self "supervision" = Ok (Src In_UnsupervisedClassifierConf)).
Proof.
  intros Hl Hc.
  destruct (leaf_of_inv _ _ Hl) as (n & d & m & p & fi & -> & Hi & _).
  rewrite Forall_forall in Hi.
  assert (Hg : dict_lookup "get_supervision" d = None)
    by (apply Hi; inherited_attr).
  assert (Hs : dict_lookup "supervision" d = None)
    by (apply Hi; inherited_attr).
  unfold bound. rewrite Hc.
  split; [|split]; intros ->;
    rewrite !class_getattr_subclass by (unfold module_classes; simpl; tauto);
    rewrite ?Hg, ?Hs; try split; reflexivity.
Qed.

Lemma sentinelled_map (a : ndarray) :
  sentinelled a = (fun v => if is_None v then PyInt (-1) else v) <$> a.
Proof.
  unfold sentinelled, eq_None. induction a as [|x a IH]; simpl; [reflexivity|].
  rewrite IH. reflexivity.
Qed.

Lemma map_result_lookup {A B} (f : A -> result B) (l : list A) (l' : list B) :
  map_result f l = Ok l' ->
  length l' = length l /\
  forall i x, l !! i = Some x -> exists y, f x = Ok y /\ l' !! i = Some y.
Proof.
  revert l'. induction l as [|x l IH]; simpl; intros l'.
  - intros [= <-]. split; [reflexivity|]. intros i x H. discriminate.
  - destruct (f x) as [y|e] eqn:Ex; simpl; [|discriminate].
    destruct (map_result f l) as [ys|e] eqn:El; simpl; [|discriminate].
    intros [= <-]. destruct (IH ys eq_refl) as [Hlen Hlk].
    split; [simpl; congruence|].
    intros [|i] z; simpl.
    + intros [= <-]. eauto.
    + apply Hlk.
Qed.

Lemma map_result_total {A B} (f : A -> result B) (l : list A) :
  Forall (fun x => exists y, f x = Ok y) l -> exists l', map_result f l = Ok l'.
Proof.
  induction 1 as [|x l [y Hy] _ [l' Hl']]; simpl; [eauto|].
  rewrite Hy, Hl'. simpl. eauto.
Qed.

Lemma map_result_raises {A B} (f : A -> result B) (l : list A) (x : A) :
  x ∈ l -> (forall y, f x <> Ok y) -> exists e, map_result f l = Raise e.
Proof.
  intros Hx Hf. induction l as [|x' l IH]; [inversion Hx|].
  simpl. destruct (f x') as [y|e] eqn:E; simpl; [|eauto].
  apply elem_of_cons in Hx as [-> | Hx]; [exfalso; eapply Hf, E|].
  destruct (IH Hx) as [e ->]. simpl. eauto.
Qed.

Section SemiSupervised.
Variable int_of_str : string -> option Z.

Lemma to_int64_error v e :
  to_int64 int_of_str v = Raise e -> conversion_error e = true.
Proof.
  unfold to_int64. destruct v; simpl; try discriminate.
  - intros [= <-]. reflexivity.
  - destruct (fits_int64 _); [discriminate|]. intros [= <-]. reflexivity.
  - destruct (fits_int64 _); [discriminate|]. intros [= <-]. reflexivity.
  - destruct (int_of_str s); simpl.
    + destruct (fits_int64 _); [discriminate|]. intros [= <-]. reflexivity.
    + intros [= <-]. reflexivity.
Qed.

Lemma map_result_error {A B} (f : A -> result B) (P : exn -> Prop) l e :
  (forall x e, f x = Raise e -> P e) -> map_result f l = Raise e -> P e.
Proof.
  intros Hf. induction l as [|x l IH]; simpl; [discriminate|].
  destruct (f x) as [y|e'] eqn:Ex; simpl.
  - destruct (map_result f l); simpl; [discriminate|].
    intros [= <-]. apply IH. reflexivity.
  - intros [= <-]. eapply Hf, Ex.
Qed.

End SemiSupervised.

Lemma np_all_ne_None (a : ndarray) :
  np_all (ne_None a) = true <-> PyNone ∉ a.
Proof.
  unfold np_all, ne_None. induction a as [|x a IH]; simpl.
  - split; [intros _ H; inversion H | reflexivity].
  - rewrite andb_true_iff, IH, not_elem_of_cons. unfold id.
    destruct x; simpl; split; try tauto; try (intros [? ?]; easy);
      intros [? ?]; split; congruence.
Qed.

Section Supervised.
Variable int_of_str : string -> option Z.

Lemma SupervisedClassifierConf_get_supervision_run
    self inst gt check h mc a :
  getattr self "multiclass" = Ok mc ->
  h !! Annotations_get_supervision (get_annotations inst gt) mc = Some a ->
  SupervisedClassifierConf_get_supervision int_of_str self inst gt check h =
  if negb (np_all (ne_None a)) then (Raise MissingAnnotations, h)
  else if check && (length (py_set a) <? 2)%nat then
    (Raise AtLeastTwoClasses, h)
  else if truthy mc then
    (Ok (length h), h ++ [(fun v => PyStr (py_str v)) <$> a])
  else
    match map_result (to_int64 int_of_str) a with
    | Ok b => (Ok (length h), h ++ [b])
    | Raise e => (Raise e, h)
    end.
Proof.
  intros Hmc Ha. unfold SupervisedClassifierConf_get_supervision.
  unfold bind at 1. rewrite (ClassifierConf_get_supervision_run _ _ _ _ _ _ Hmc).
  unfold bind at 1. rewrite (load_hit _ _ _ Ha).
  unfold bind at 1.
  destruct (negb (np_all (ne_None a))); [reflexivity|].
  unfold ret at 1. unfold bind at 1.
  destruct check; simpl andb.
  - destruct (length (py_set a) <? 2)%nat; [reflexivity|].
    unfold ret at 1. unfold bind, lift. rewrite Hmc.
    destruct (truthy mc).
    + unfold astype_str, bind. rewrite (load_hit _ _ _ Ha). reflexivity.
    + unfold astype_int, bind, lift. rewrite (load_hit _ _ _ Ha).
      destruct (map_result _ _); reflexivity.
  - unfold ret at 1. unfold bind, lift. rewrite Hmc.
    destruct (truthy mc).
    + unfold astype_str, bind. rewrite (load_hit _ _ _ Ha). reflexivity.
    + unfold astype_int, bind, lift. rewrite (load_hit _ _ _ Ha).
      destruct (map_result _ _); reflexivity.
Qed.

(** C2.  For a configuration built from a leaf of
    [SupervisedClassifierConf], [get_supervision] on the label array [a] of
    the annotations: raises [MissingAnnotations] when a label is unset,
    whatever [check] is; raises [AtLeastTwoClasses] when all labels are set,
    [check] holds and fewer than two distinct values are present; on a fully
    labeled array with two classes or more it returns a new array, the
    [str] of each label when [multiclass] is true, and the [int] of each
    label when [multiclass] is false and every label has one. *)
Theorem supervised_get_supervision
    (c : pyclass) (multiclass hyperparam_conf logger : pyobj) (self : pyinst)
    (instances : Instances) (ground_truth check : bool)
    (h : heap) (a : ndarray) :
  leaf_of SupervisedClassifierConf c = true ->
  construct c [multiclass; hyperparam_conf; logger] = Ok self ->
  h !! Annotations_get_supervision
         (get_annotations instances ground_truth) multiclass = Some a ->
  let out :=
    call_get_supervision int_of_str self instances ground_truth check h in
  (PyNone ∈ a -> out = (Raise MissingAnnotations, h)) /\
  (PyNone ∉ a -> check = true -> (length (py_set a) < 2)%nat ->
   out = (Raise AtLeastTwoClasses, h)) /\
  (PyNone ∉ a -> (2 <= length (py_set a))%nat ->
   multiclass = Val (PyBool true) ->
   out = (Ok (Some (length h)), h ++ [(fun v => PyStr (py_str v)) <$> a])) /\
  (PyNone ∉ a -> (2 <= length (py_set a))%nat ->
   multiclass = Val (PyBool false) ->
   (forall v, v ∈ a ->
              exists z, py_int int_of_str v = Ok z /\ fits_int64 z = true) ->
   exists b : ndarray,
     out = (Ok (Some (length h)), h ++ [b]) /\
     length b = length a /\
     forall i v z, a !! i = Some v -> py_int int_of_str v = Ok z ->
                   b !! i = Some (PyInt z)).
Proof.
  intros Hl Hc Ha out.
  destruct (construct_leaf _ _ multiclass hyperparam_conf logger Hl) as [H3 _].
  rewrite H3 in Hc by tauto. injection Hc as <-.
  destruct (getattr_new c multiclass hyperparam_conf logger)
    as (Hmc & _ & _ & _ & _ & Hcls).
  destruct (bound_get_supervision _ _ _ Hl Hcls) as (Hb & _ & _).
  assert (Hout : out =
    let '(r, h') := SupervisedClassifierConf_get_supervision int_of_str
                      (new c multiclass hyperparam_conf logger)
                      instances ground_truth check h in
    (match r with Ok l => Ok (Some l) | Raise e => Raise e end, h')).
  { unfold out, call_get_supervision, bind at 1. unfold lift.
    rewrite Hb by reflexivity. unfold bind.
    destruct (SupervisedClassifierConf_get_supervision _ _ _ _ _ _) as [[l|e] h'];
      reflexivity. }
  rewrite (SupervisedClassifierConf_get_supervision_run _ _ _ _ _ _ _ Hmc Ha)
    in Hout.
  clearbody out. subst out.
  split; [|split; [|split]].
  - intros Hn. destruct (np_all (ne_None a)) eqn:E; [|reflexivity].
    apply np_all_ne_None in E. contradiction.
  - intros Hn -> Hlt. apply np_all_ne_None in Hn. rewrite Hn. simpl.
    apply Nat.ltb_lt in Hlt. rewrite Hlt. reflexivity.
  - intros Hn Hge ->. apply np_all_ne_None in Hn. rewrite Hn. simpl negb.
    cbv iota. apply Nat.ltb_ge in Hge. rewrite Hge, andb_false_r.
    reflexivity.
  - intros Hn Hge -> Hcode. apply np_all_ne_None in Hn. rewrite Hn. simpl negb.
    cbv iota. apply Nat.ltb_ge in Hge. rewrite Hge, andb_false_r.
    simpl truthy. cbv iota.
    assert (Hall : Forall (fun v => exists y, to_int64 int_of_str v = Ok y) a).
    { apply Forall_forall. intros v Hv. destruct (Hcode v Hv) as (z & Hz & Hfit).
      exists (PyInt z). unfold to_int64. rewrite Hz. simpl. rewrite Hfit.
      reflexivity. }
    destruct (map_result_total _ _ Hall) as [b Hb'].
    rewrite Hb'. exists b. split; [reflexivity|].
    destruct (map_result_lookup _ _ _ Hb') as [Hlen Hlk].
    split; [exact Hlen|].
    intros i v z Hi Hz. destruct (Hlk i v Hi) as (y & Hy & Hyi).
    destruct (Hcode v (proj2 (list_elem_of_lookup _ _) (ex_intro _ i Hi)))
      as (z' & Hz' & Hfit).
    rewrite Hz in Hz'. injection Hz' as <-.
    unfold to_int64 in Hy. rewrite Hz in Hy. simpl in Hy. rewrite Hfit in Hy.
    injection Hy as <-. exact Hyi.
Qed.
End Supervised.

Section Paradigms.
Variable int_of_str : string -> option Z.

Lemma SemiSupervisedClassifierConf_get_supervision_miss
    self inst gt check h mc :
  getattr self "multiclass" = Ok mc ->
  h !! Annotations_get_supervision (get_annotations inst gt) mc = None ->
  SemiSupervisedClassifierConf_get_supervision int_of_str self inst gt check h =
  (Raise InvalidAddress, h).
Proof.
  intros Hmc Ha. unfold SemiSupervisedClassifierConf_get_supervision.
  unfold bind at 1. rewrite (ClassifierConf_get_supervision_run _ _ _ _ _ _ Hmc).
  unfold deepcopy, bind. rewrite (load_miss _ _ Ha). reflexivity.
Qed.

(** C3, as amended.  For a configuration built from a leaf of
    [SemiSupervisedClassifierConf], the base extraction that
    [get_supervision] starts with returns the label array of the annotations
    unchecked, and [get_supervision] raises neither [MissingAnnotations] nor
    [AtLeastTwoClasses], on any dataset.  The unset labels are replaced by
    the sentinel -1: the copy that [get_supervision] makes of the label
    array [a] holds -1 at the unset positions of [a] and the labels of [a]
    at the others, and the array it returns, whenever it returns one, holds
    -1 at every unset position of [a]. *)
Theorem semisupervised_no_label_checks
    (c : pyclass) (multiclass hyperparam_conf logger : pyobj) (self : pyinst)
    (instances : Instances) (ground_truth check : bool) (h : heap) :
  leaf_of SemiSupervisedClassifierConf c = true ->
  construct c [multiclass; hyperparam_conf; logger] = Ok self ->
  ClassifierConf_get_supervision self instances ground_truth check h =
    (Ok (Annotations_get_supervision
           (get_annotations instances ground_truth) multiclass), h) /\
  fst (call_get_supervision int_of_str self instances ground_truth check h)
    <> Raise MissingAnnotations /\
  fst (call_get_supervision int_of_str self instances ground_truth check h)
    <> Raise AtLeastTwoClasses /\
  forall a,
    h !! Annotations_get_supervision
           (get_annotations instances ground_truth) multiclass = Some a ->
    (exists s,
       snd (call_get_supervision int_of_str self instances ground_truth
              check h) !! length h = Some s /\
       length s = length a /\
       forall i v, a !! i = Some v ->
         s !! i = Some (if is_None v then PyInt (-1) else v)) /\
    (forall l,
       fst (call_get_supervision int_of_str self instances ground_truth
              check h) = Ok (Some l) ->
       exists b,
         snd (call_get_supervision int_of_str self instances ground_truth
                check h) !! l = Some b /\
         length b = length a /\
         forall i, a !! i = Some PyNone -> b !! i = Some (PyInt (-1))).
Proof.
  intros Hl Hc.
  destruct (construct_leaf _ _ multiclass hyperparam_conf logger Hl) as [H3 _].
  rewrite H3 in Hc by tauto. injection Hc as <-.
  destruct (getattr_new c multiclass hyperparam_conf logger)
    as (Hmc & _ & _ & _ & _ & Hcls).
  destruct (bound_get_supervision _ _ _ Hl Hcls) as (_ & Hb & _).
  split; [apply ClassifierConf_get_supervision_run, Hmc|].
  assert (Hne : forall e, e = MissingAnnotations \/ e = AtLeastTwoClasses ->
    fst (call_get_supervision int_of_str (new c multiclass hyperparam_conf logger)
           instances ground_truth check h) <> Raise e).
  { intros e He. unfold call_get_supervision, bind at 1. unfold lift.
    rewrite Hb by reflexivity. unfold bind.
    destruct (h !! Annotations_get_supervision
                     (get_annotations instances ground_truth) multiclass)
      as [a|] eqn:Ha.
    - rewrite (SemiSupervisedClassifierConf_get_supervision_run
                 _ _ _ _ _ _ _ _ Hmc Ha).
      destruct (map_result _ _) as [b|e'] eqn:Em; unfold ret; simpl;
        intros Heq; [discriminate Heq|].
      assert (e' = e) as -> by congruence.
      apply (map_result_error _ (fun e => conversion_error e = true)) in Em.
      + destruct He as [-> | ->]; discriminate Em.
      + apply to_int64_error.
    - rewrite (SemiSupervisedClassifierConf_get_supervision_miss
                 _ _ _ _ _ _ Hmc Ha).
      simpl. intros Heq. assert (InvalidAddress = e) as <- by congruence.
      destruct He; discriminate. }
  split; [apply Hne; tauto|]. split; [apply Hne; tauto|].
  intros a Ha.
  assert (Hcall :
    call_get_supervision int_of_str (new c multiclass hyperparam_conf logger)
      instances ground_truth check h =
    match map_result (to_int64 int_of_str) (sentinelled a) with
    | Ok b => (Ok (Some (S (length h))), h ++ [sentinelled a; b])
    | Raise e => (Raise e, h ++ [sentinelled a])
    end).
  { unfold call_get_supervision, bind at 1. unfold lift.
    rewrite Hb by reflexivity. unfold bind.
    rewrite (SemiSupervisedClassifierConf_get_supervision_run
               _ _ _ _ _ _ _ _ Hmc Ha).
    destruct (map_result _ _); reflexivity. }
  rewrite Hcall. clear Hcall.
  assert (Happ : forall b, h ++ [sentinelled a; b]
                           = (h ++ [sentinelled a]) ++ [b]).
  { intros b. rewrite <- app_assoc. reflexivity. }
  split.
  - exists (sentinelled a). split; [|split].
    + destruct (map_result _ _) as [b|e]; cbn [snd]; [|apply lookup_new].
      rewrite Happ, lookup_app_l by (rewrite length_app; simpl; lia).
      apply lookup_new.
    + rewrite sentinelled_map, length_fmap. reflexivity.
    + intros i v Hi. rewrite sentinelled_map, list_lookup_fmap, Hi.
      reflexivity.
  - intros l. destruct (map_result _ _) as [b|e] eqn:Em; cbn [fst snd];
      [|discriminate].
    intros [= <-]. exists b.
    destruct (map_result_lookup _ _ _ Em) as [Hlen Hlk].
    split; [|split].
    + rewrite Happ.
      replace (S (length h)) with (length (h ++ [sentinelled a]))
        by (rewrite length_app; simpl; lia).
      apply lookup_new.
    + rewrite Hlen, sentinelled_map, length_fmap. reflexivity.
    + intros i Hi. destruct (Hlk i (PyInt (-1))) as (y & Hy & Hyi).
      { rewrite sentinelled_map, list_lookup_fmap, Hi. reflexivity. }
      simpl in Hy. injection Hy as <-. exact Hyi.
Qed.

(** C10.  The semi-supervised extraction only adds arrays to the store: every
    array that was there before the call is there unchanged after it.  The
    label array [a] of the annotations is still [a], and the substituted
    array is the copy made at the first free address. *)
Theorem semisupervised_leaves_annotations
    (self : pyinst) (instances : Instances) (ground_truth check : bool)
    (h : heap) :
  let h' := snd (SemiSupervisedClassifierConf_get_supervision int_of_str
                   self instances ground_truth check h) in
  h `prefix_of` h' /\
  forall multiclass a,
    getattr self "multiclass" = Ok multiclass ->
    h !! Annotations_get_supervision
           (get_annotations instances ground_truth) multiclass = Some a ->
    h' !! Annotations_get_supervision
            (get_annotations instances ground_truth) multiclass = Some a /\
    h' !! length h = Some (sentinelled a).
Proof.
  intros h'. subst h'.
  destruct (getattr self "multiclass") as [mc|e] eqn:Hmc.
  - destruct (h !! Annotations_get_supervision
                     (get_annotations instances ground_truth) mc)
      as [a|] eqn:Ha.
    + rewrite (SemiSupervisedClassifierConf_get_supervision_run
                 _ _ _ _ _ _ _ _ Hmc Ha).
      assert (Hp : forall k, h `prefix_of` h ++ k) by (intros; eexists; eauto).
      assert (Hs : forall k, (h ++ sentinelled a :: k) !! length h
                             = Some (sentinelled a)).
      { intros. rewrite lookup_app_r by lia. rewrite Nat.sub_diag. reflexivity. }
      destruct (map_result _ _); simpl; (split; [apply Hp|]);
        intros ? ? [= <-] Ha'; rewrite Ha in Ha'; injection Ha' as <-;
        (split; [rewrite lookup_app_l by (eapply lookup_lt_Some, Ha); exact Ha
                | apply Hs]).
    + rewrite (SemiSupervisedClassifierConf_get_supervision_miss
                 _ _ _ _ _ _ Hmc Ha). simpl.
      split; [reflexivity|]. intros ? ? [= <-] Ha'. congruence.
  - unfold SemiSupervisedClassifierConf_get_supervision,
      ClassifierConf_get_supervision, bind, lift. rewrite Hmc. simpl.
    split; [reflexivity|]. intros ? ? [=].
Qed.

(** The masked assignment writes the array it is given, in place. *)
Lemma setitem_mask_in_place (h : heap) (l : loc) (a : ndarray)
    (mask : list bool) (v : pyval) :
  h !! l = Some a ->
  setitem_mask l mask v h = (Ok tt, <[l := putmask a mask v]> h).
Proof.
  intros H. unfold setitem_mask, bind. rewrite (load_hit _ _ _ H).
  unfold store. rewrite H. reflexivity.
Qed.

Lemma unsupervised_leaf_get_supervision
    (c : pyclass) (hyperparam_conf logger : pyobj) (self : pyinst)
    (instances : Instances) (ground_truth check : bool) (h : heap) :
  leaf_of UnsupervisedClassifierConf c = true ->
  construct c [hyperparam_conf; logger] = Ok self ->
  call_get_supervision int_of_str self instances ground_truth check h =
  (Ok (Some (Annotations_get_supervision
               (get_annotations instances ground_truth) (Val (PyBool false)))),
   h).
Proof.
  intros Hl Hc.
  destruct (construct_leaf _ _ (Val PyNone) hyperparam_conf logger Hl) as [_ H2].
  destruct (H2 eq_refl) as [H2' _]. rewrite H2' in Hc. injection Hc as <-.
  destruct (getattr_new c (Val (PyBool false)) hyperparam_conf logger)
    as (Hmc & _ & _ & _ & _ & Hcls).
  destruct (bound_get_supervision _ _ _ Hl Hcls) as (_ & _ & Hb).
  destruct (Hb eq_refl) as [Hg _].
  unfold call_get_supervision, bind at 1. unfold lift. rewrite Hg.
  unfold bind. rewrite (ClassifierConf_get_supervision_run _ _ _ _ _ _ Hmc).
  reflexivity.
Qed.

(** What the method named [supervision] does. *)
Lemma unsupervised_leaf_supervision
    (c : pyclass) (hyperparam_conf logger : pyobj) (self : pyinst)
    (instances : Instances) (check : bool) (h : heap) (a : ndarray) :
  leaf_of UnsupervisedClassifierConf c = true ->
  construct c [hyperparam_conf; logger] = Ok self ->
  call_supervision int_of_str self instances false check h = (Ok None, h) /\
  (h !! Annotations_get_supervision
          (get_annotations instances true) (Val (PyBool false)) = Some a ->
   call_supervision int_of_str self instances true check h =
   match map_result (to_int64 int_of_str) a with
   | Ok b => (Ok (Some (length h)), h ++ [b])
   | Raise e => (Raise e, h)
   end).
Proof.
  intros Hl Hc.
  destruct (construct_leaf _ _ (Val PyNone) hyperparam_conf logger Hl) as [_ H2].
  destruct (H2 eq_refl) as [H2' _]. rewrite H2' in Hc. injection Hc as <-.
  destruct (getattr_new c (Val (PyBool false)) hyperparam_conf logger)
    as (Hmc & _ & _ & _ & _ & Hcls).
  destruct (bound_get_supervision _ _ _ Hl Hcls) as (_ & _ & Hb).
  destruct (Hb eq_refl) as [_ Hs].
  unfold call_supervision, bind at 1. unfold lift. rewrite Hs.
  split; [reflexivity|].
  intros Ha. unfold UnsupervisedClassifierConf_supervision.
  simpl negb. cbv beta iota. unfold bind.
  rewrite (ClassifierConf_get_supervision_run _ _ _ _ _ _ Hmc).
  unfold astype_int, bind, lift. rewrite (load_hit _ _ _ Ha).
  destruct (map_result _ _); reflexivity.
Qed.
End Paradigms.

(** C8.  Every object that the constructor of an unsupervised leaf builds has
    [multiclass] equal to [False], and the constructor takes the
    hyperparameter configuration and the logger, nothing else. *)
Theorem unsupervised_multiclass_false (c : pyclass) (args : list pyobj)
    (self : pyinst) :
  leaf_of UnsupervisedClassifierConf c = true ->
  construct c args = Ok self ->
  getattr self "multiclass" = Ok (Val (PyBool false)) /\
  exists hyperparam_conf logger, args = [hyperparam_conf; logger].
Proof.
  intros Hl Hc.
  destruct (construct_leaf _ _ (Val PyNone) (Val PyNone) (Val PyNone) Hl) as [_ H2].
  destruct (H2 eq_refl) as [_ Hinv].
  destruct (Hinv _ _ Hc) as (hp & lg & -> & ->).
  split; [apply getattr_new | eauto].
Qed.

(** The chain of tests of [get_classifier_type] is a first match over
    [paradigm_tests]. *)
Lemma get_classifier_type_in_order (class_ : pyclass) :
  get_classifier_type class_ = classify_in_order class_.
Proof.
  unfold get_classifier_type, classify_in_order, first_derivation,
    paradigm_tests.
  cbn [List.find fst].
  destruct (issubclass class_ UnsupervisedClassifierConf); [reflexivity|].
  destruct (issubclass class_ SemiSupervisedClassifierConf); [reflexivity|].
  destruct (issubclass class_ SupervisedClassifierConf); [reflexivity|].
  destruct (issubclass class_ ClassifierConf); reflexivity.
Qed.

Lemma issubclass_derives (c x : pyclass) :
  issubclass c x = true <-> derives_from c x.
Proof.
  induction c as [n bs d IH] using pyclass_ind.
  cbn [issubclass]. rewrite orb_true_iff, pyclass_eqb_eq.
  assert (Hany :
    (fix any (bs : list pyclass) : bool :=
       match bs with
       | [] => false
       | b :: bs' => issubclass b x || any bs'
       end) bs = true <-> exists b, In b bs /\ derives_from b x).
  { induction IH as [|b bs Hb _ IHbs].
    - split; [discriminate | intros (b & [] & _)].
    - rewrite orb_true_iff, Hb, IHbs. split.
      + intros [H | (b' & Hin & H)]; [exists b | exists b']; simpl; auto.
      + intros (b' & [<- | Hin] & H); [left | right]; eauto. }
  rewrite Hany. split.
  - intros [-> | (b & Hin & H)]; [apply derives_self|].
    eapply derives_base; [exact Hin | exact H].
  - intros H. inversion H as [|? b ? Hin Hb]; subst; [left; reflexivity|].
    right. eauto.
Qed.

Lemma derives_from_trans (a b c : pyclass) :
  derives_from a b -> derives_from b c -> derives_from a c.
Proof.
  induction 1 as [|a b' b Hin _ IH]; [auto|].
  intros H. eapply derives_base; [exact Hin | exact (IH H)].
Qed.

Lemma paradigms_derive_from_ClassifierConf (x : pyclass) :
  In x [UnsupervisedClassifierConf; SemiSupervisedClassifierConf;
        SupervisedClassifierConf] ->
  derives_from x ClassifierConf.
Proof.
  cbn [In]. intros [<-|[<-|[<-|[]]]];
    (eapply derives_base; [left; reflexivity | apply derives_self]).
Qed.

(** C6.  [get_classifier_type] tests derivation in the order unsupervised,
    semi-supervised, supervised: it returns the tag of the first paradigm
    base that the class derives from; for a class that derives from none of
    the three but from [ClassifierConf] it returns [None]; for a class that
    is no classifier configuration it raises [ValueError] with a message that
    starts with the name of the class. *)
Theorem get_classifier_type_order (class_ : pyclass) :
  (derives_from class_ UnsupervisedClassifierConf ->
   get_classifier_type class_ = Ok (Some unsupervised)) /\
  (~ derives_from class_ UnsupervisedClassifierConf ->
   derives_from class_ SemiSupervisedClassifierConf ->
   get_classifier_type class_ = Ok (Some semisupervised)) /\
  (~ derives_from class_ UnsupervisedClassifierConf ->
   ~ derives_from class_ SemiSupervisedClassifierConf ->
   derives_from class_ SupervisedClassifierConf ->
   get_classifier_type class_ = Ok (Some supervised)) /\
  (~ derives_from class_ UnsupervisedClassifierConf ->
   ~ derives_from class_ SemiSupervisedClassifierConf ->
   ~ derives_from class_ SupervisedClassifierConf ->
   derives_from class_ ClassifierConf ->
   get_classifier_type class_ = Ok None) /\
  (~ derives_from class_ ClassifierConf ->
   get_classifier_type class_ =
   Raise (ValueError (class_name class_ +:+ " is not a classifier configuration."))).
Proof.
  assert (Hno : forall x, ~ derives_from class_ x -> issubclass class_ x = false).
  { intros x H. apply not_true_is_false. rewrite issubclass_derives. exact H. }
  unfold get_classifier_type. repeat split.
  - intros H. apply issubclass_derives in H. rewrite H. reflexivity.
  - intros HU H. apply issubclass_derives in H. rewrite (Hno _ HU), H.
    reflexivity.
  - intros HU HSe H. apply issubclass_derives in H.
    rewrite (Hno _ HU), (Hno _ HSe), H. reflexivity.
  - intros HU HSe HSu H. apply issubclass_derives in H.
    rewrite (Hno _ HU), (Hno _ HSe), (Hno _ HSu), H. reflexivity.
  - intros H.
    assert (Hp : forall x,
      In x [UnsupervisedClassifierConf; SemiSupervisedClassifierConf;
            SupervisedClassifierConf] -> ~ derives_from class_ x).
    { intros x Hx Hd. apply H. eapply derives_from_trans; [exact Hd|].
      apply paradigms_derive_from_ClassifierConf, Hx. }
    rewrite !Hno; [reflexivity | exact H | | |]; apply Hp; cbn [In]; auto.
Qed.

Lemma get_classifier_type_order_witness :
  get_classifier_type TwoParadigmsConf = Ok (Some unsupervised).
Proof.
  refine (proj1 (get_classifier_type_order TwoParadigmsConf) _).
  eapply derives_base; [right; left; reflexivity | apply derives_self].
Defined.

Example mro_samples :
  (map class_name <$>
   mro (PyClass "D" [PyClass "B" [PyClass "A" [] []] [];
                     PyClass "C" [PyClass "A" [] []] []] []))
  = Some ["D"; "B"; "C"; "A"] /\
  mro (PyClass "E" [PyClass "A" [] []; PyClass "B" [PyClass "A" [] []] []] [])
  = None /\
  (map class_name <$> mro IsolationForestConf)
  = Some ["IsolationForestConf"; "UnsupervisedClassifierConf";
          "ClassifierConf"; "Conf"] /\
  class_getattr IsolationForestConf "get_supervision"
  = Some (Src In_ClassifierConf) /\
  class_getattr LabelPropagationConf "get_supervision"
  = Some (Src In_SemiSupervisedClassifierConf) /\
  class_getattr TwoParadigmsConf "get_supervision"
  = Some (Src In_SupervisedClassifierConf).
Proof. repeat split; vm_compute; reflexivity. Qed.

Example get_classifier_type_samples :
  get_classifier_type IsolationForestConf = Ok (Some unsupervised) /\
  get_classifier_type LabelPropagationConf = Ok (Some semisupervised) /\
  get_classifier_type LogisticRegressionConf = Ok (Some supervised) /\
  get_classifier_type TwoParadigmsConf = Ok (Some unsupervised) /\
  get_classifier_type ClassifierConf = Ok None /\
  get_classifier_type Conf =
    Raise (ValueError "Conf is not a classifier configuration.") /\
  get_classifier_type Unrelated =
    Raise (ValueError "Unrelated is not a classifier configuration.").
Proof. repeat split; vm_compute; reflexivity. Qed.

Lemma paradigm_class_tag (c : pyclass) :
  paradigm_class c = true -> exists t, get_classifier_type c = Ok (Some t).
Proof.
  unfold paradigm_class, get_classifier_type.
  destruct (issubclass c UnsupervisedClassifierConf); [eauto|].
  destruct (issubclass c SemiSupervisedClassifierConf); [eauto|].
  destruct (issubclass c SupervisedClassifierConf); [eauto|discriminate].
Qed.

Lemma length_by_paradigm (tag : string -> option ClassifierType)
    (l : list string) :
  Forall (fun m => exists t, tag m = Some t) l ->
  length l =
  (length (List.filter (fun m => bool_decide (tag m = Some unsupervised)) l)
   + length (List.filter (fun m => bool_decide (tag m = Some semisupervised)) l)
   + length (List.filter (fun m => bool_decide (tag m = Some supervised)) l))%nat.
Proof.
  induction 1 as [|m l [t Ht] _ IH]; [reflexivity|].
  cbn [List.filter length]. rewrite Ht, IH. destruct t; simpl; lia.
Qed.

Section Methods.
Variable ConfFactory_get_methods : ClassifierConfFactory -> list string.
Variable ConfFactory_get_class :
  ClassifierConfFactory -> string -> result pyclass.

Abbreviation tagged :=
  (methods_of_paradigm ConfFactory_get_methods ConfFactory_get_class).

Lemma filter_result_paradigm (self : ClassifierConfFactory)
    (t : ClassifierType) (l : list string) :
  Forall (fun m => exists c, ConfFactory_get_class self m = Ok c /\
                             paradigm_class c = true) l ->
  filter_result
    (fun c =>
       (class_ <- ConfFactory_get_class self c ;;
        t' <- get_classifier_type class_ ;;
        Ok (bool_decide (t' = Some t)))%result) l =
  Ok (List.filter
        (fun m => bool_decide (paradigm_of (ConfFactory_get_class self) m = Some t))
        l).
Proof.
  induction 1 as [|m l (c & Hc & Hp) _ IH]; [reflexivity|].
  cbn [filter_result List.filter]. rewrite IH. unfold paradigm_of.
  rewrite Hc. cbn [result_bind].
  destruct (paradigm_class_tag _ Hp) as [t' Ht']. rewrite Ht'.
  cbn [result_bind]. destruct (bool_decide (Some t' = Some t)); reflexivity.
Qed.

(** C7.  When every registered method name resolves to a class of one of the
    three paradigms, [get_methods] without a paradigm returns all names,
    [get_methods] with paradigm [t] returns exactly the names whose class has
    paradigm [t], in their order, and the three filtered lists partition the
    names: every name is in one of them, in no two of them, and their
    lengths add up. *)
Theorem get_methods_partition (self : ClassifierConfFactory) :
  (forall m, m ∈ ConfFactory_get_methods self ->
     exists c, ConfFactory_get_class self m = Ok c /\ paradigm_class c = true) ->
  get_methods ConfFactory_get_methods ConfFactory_get_class self None
    = Ok (ConfFactory_get_methods self) /\
  (forall t,
     get_methods ConfFactory_get_methods ConfFactory_get_class self (Some t)
     = Ok (tagged self t)) /\
  (forall m, m ∈ ConfFactory_get_methods self <->
     m ∈ tagged self unsupervised \/ m ∈ tagged self semisupervised \/
     m ∈ tagged self supervised) /\
  (forall m t t', m ∈ tagged self t -> m ∈ tagged self t' -> t = t') /\
  length (ConfFactory_get_methods self) =
    (length (tagged self unsupervised) + length (tagged self semisupervised)
     + length (tagged self supervised))%nat.
Proof.
  intros Hall. split; [reflexivity|]. split.
  { intros t. unfold get_methods, methods_of_paradigm. apply filter_result_paradigm.
    apply Forall_forall. exact Hall. }
  assert (Hmem : forall m t, m ∈ tagged self t <->
            m ∈ ConfFactory_get_methods self /\
            paradigm_of (ConfFactory_get_class self) m = Some t).
  { intros m t. unfold methods_of_paradigm. rewrite list_elem_of_In, filter_In,
      bool_decide_eq_true, <- list_elem_of_In. reflexivity. }
  assert (Htag : forall m, m ∈ ConfFactory_get_methods self ->
            exists t, paradigm_of (ConfFactory_get_class self) m = Some t).
  { intros m Hm. destruct (Hall m Hm) as (c & Hc & Hp).
    destruct (paradigm_class_tag _ Hp) as [t Ht]. exists t.
    unfold paradigm_of. rewrite Hc, Ht. reflexivity. }
  split; [|split].
  - intros m. rewrite !Hmem. split.
    + intros Hm. destruct (Htag m Hm) as [[] Ht]; tauto.
    + tauto.
  - intros m t t'. rewrite !Hmem. intros [_ H1] [_ H2]. congruence.
  - unfold methods_of_paradigm. apply length_by_paradigm.
    apply Forall_forall. exact Htag.
Qed.
End Methods.

Section Default.
Variable HyperparamConf_get_default :
  pyobj -> pyobj -> pyobj -> pyclass -> pyobj -> result pyobj.
Variable ConfFactory_get_class :
  ClassifierConfFactory -> string -> result pyclass.

(** C9.  [get_default] calls the resolved class with three arguments.  For an
    unsupervised leaf, whose constructor takes two, it raises the arity
    [TypeError]; for a supervised or semi-supervised leaf it returns the new
    configuration. *)
Theorem get_default_arity
    (classifier_conf_factory : option ClassifierConfFactory)
    (model_class : string) (num_folds n_jobs multiclass logger : pyobj)
    (class_ : pyclass) (hyper_conf : pyobj) :
  ConfFactory_get_class (fst (get_factory classifier_conf_factory)) model_class
    = Ok class_ ->
  HyperparamConf_get_default num_folds n_jobs multiclass class_ logger
    = Ok hyper_conf ->
  let out := fst (get_default HyperparamConf_get_default ConfFactory_get_class
                    classifier_conf_factory model_class num_folds n_jobs
                    multiclass logger) in
  (leaf_of UnsupervisedClassifierConf class_ = true ->
   out = Raise (too_many_args 3 4)) /\
  (leaf_of SupervisedClassifierConf class_ = true \/
   leaf_of SemiSupervisedClassifierConf class_ = true ->
   out = Ok (new class_ multiclass hyper_conf logger)).
Proof.
  intros Hc Hh out. unfold out, get_default.
  destruct (get_factory classifier_conf_factory) as [factory g'].
  cbn [fst] in Hc |- *. rewrite Hc. cbn [result_bind].
  rewrite Hh. cbn [result_bind]. split.
  - intros Hl.
    destruct (construct_leaf _ _ multiclass hyper_conf logger Hl) as [_ H2].
    destruct (H2 eq_refl) as [_ Hinv].
    destruct (construct class_ [multiclass; hyper_conf; logger]) as [s|e] eqn:E.
    + destruct (Hinv _ _ E) as (? & ? & [=] & _).
    + revert E.
      destruct (leaf_of_inv _ _ Hl) as (n & d & _ & _ & _ & -> & Hi & _).
      rewrite Forall_forall in Hi.
      unfold construct. rewrite class_getattr_subclass
        by (unfold module_classes; simpl; tauto).
      rewrite (Hi "__init__") by (inherited_attr).
      change (class_getattr _ "__init__")
        with (Some (Src In_UnsupervisedClassifierConf)).
      cbv iota beta. intros [= <-]. reflexivity.
  - intros [Hl | Hl];
      apply (construct_leaf _ _ multiclass hyper_conf logger Hl); tauto.
Qed.
End Default.

Lemma construct_leaf_inv (base c : pyclass) (args : list pyobj) (self : pyinst) :
  In base [SupervisedClassifierConf; SemiSupervisedClassifierConf;
           UnsupervisedClassifierConf] ->
  leaf_of base c = true ->
  construct c args = Ok self ->
  exists mc hp lg,
    self = new c mc hp lg /\
    (base = UnsupervisedClassifierConf -> mc = Val (PyBool false)) /\
    class_getattr c "__init__" =
      (if pyclass_eqb base UnsupervisedClassifierConf
       then Some (Src In_UnsupervisedClassifierConf)
       else class_getattr base "__init__") /\
    (forall mc' hp' lg',
       construct c (if pyclass_eqb base UnsupervisedClassifierConf
                    then [hp'; lg'] else [mc'; hp'; lg'])
       = Ok (new c (if pyclass_eqb base UnsupervisedClassifierConf
                    then Val (PyBool false) else mc') hp' lg')).
Proof.
  intros Hb Hl Hc.
  assert (Hinit : class_getattr c "__init__" = class_getattr base "__init__").
  { destruct (leaf_of_inv _ _ Hl) as (n & d & _ & _ & _ & -> & Hi & _).
    rewrite Forall_forall in Hi.
    rewrite class_getattr_subclass.
    - rewrite (Hi "__init__") by (inherited_attr). reflexivity.
    - unfold module_classes. cbn [In] in Hb |- *. tauto. }
  cbn [In] in Hb. destruct Hb as [<-|[<-|[<-|[]]]].
  - change (pyclass_eqb SupervisedClassifierConf UnsupervisedClassifierConf)
      with false. cbv iota.
    assert (H3 : forall mc hp lg, construct c [mc; hp; lg] = Ok (new c mc hp lg)).
    { intros. destruct (construct_leaf _ _ mc hp lg Hl) as [H _].
      apply H. tauto. }
    destruct args as [|x [|y [|z [|w args]]]];
      try (revert Hc; unfold construct; rewrite Hinit;
           change (class_getattr _ "__init__")
             with (Some (Src In_SupervisedClassifierConf));
           discriminate).
    rewrite H3 in Hc. injection Hc as <-.
    exists x, y, z. split; [reflexivity|]. split; [discriminate|].
    split; [exact Hinit|]. intros. apply H3.
  - change (pyclass_eqb SemiSupervisedClassifierConf UnsupervisedClassifierConf)
      with false. cbv iota.
    assert (H3 : forall mc hp lg, construct c [mc; hp; lg] = Ok (new c mc hp lg)).
    { intros. destruct (construct_leaf _ _ mc hp lg Hl) as [H _].
      apply H. tauto. }
    destruct args as [|x [|y [|z [|w args]]]];
      try (revert Hc; unfold construct; rewrite Hinit;
           change (class_getattr _ "__init__")
             with (Some (Src In_SemiSupervisedClassifierConf));
           discriminate).
    rewrite H3 in Hc. injection Hc as <-.
    exists x, y, z. split; [reflexivity|]. split; [discriminate|].
    split; [exact Hinit|]. intros. apply H3.
  - change (pyclass_eqb UnsupervisedClassifierConf UnsupervisedClassifierConf)
      with true. cbv iota.
    destruct (construct_leaf _ _ (Val PyNone) (Val PyNone) (Val PyNone) Hl)
      as [_ H2].
    destruct (H2 eq_refl) as [_ Hinv].
    destruct (Hinv _ _ Hc) as (hp & lg & -> & ->).
    exists (Val (PyBool false)), hp, lg.
    split; [reflexivity|]. split; [reflexivity|]. split; [exact Hinit|].
    intros _ hp' lg'.
    apply (construct_leaf _ _ (Val PyNone) hp' lg' Hl). reflexivity.
Qed.

Section RoundTrip.
Variable HyperparamConf_from_args :
  record -> pyclass -> bool -> pyobj -> result pyobj.
Variable HyperparamConf_from_json :
  pyobj -> pyclass -> pyobj -> result pyobj.
Variable export_obj : pyobj -> pyobj.

Lemma from_args_constructs (self : ClassifierConfFactory) (method : string)
    (args : record) (logger : pyobj) (conf : pyinst) :
  from_args HyperparamConf_from_args self method args logger = Ok conf ->
  exists c args',
    methods self !! (method +:+ "Conf") = Some c /\
    construct c args' = Ok conf.
Proof.
  unfold from_args, methods_getitem.
  destruct (methods self !! (method +:+ "Conf")) as [c|]; [|discriminate].
  cbn [result_bind].
  destruct (if negb (String.eqb method "AlreadyTrained") then _ else _)
    as [hp|]; [|discriminate].
  cbn [result_bind]. unfold class_from_args.
  destruct (class_getattr c "from_args") as [[]|]; try discriminate.
  cbn [result_bind]. unfold Leaf_from_args.
  destruct (class_getattr c "__init__") as [[[]| | |]|];
    try (destruct (getitem args "multiclass"); [|discriminate];
         cbn [result_bind]); eauto.
Qed.

Lemma export_new (c : pyclass) (mc hp lg : pyobj) :
  export export_obj (new c mc hp lg) = Ok (exported export_obj c mc hp).
Proof. reflexivity. Qed.

(** C5.  A configuration of a registered leaf, built by its constructor or by
    [from_args], exports to a record from which [from_json] rebuilds a
    configuration of the same class with the same model class name, the
    same [multiclass] flag and the same hyperparameters, provided the
    hyperparameter subsystem reloads what it exported. *)
Theorem export_from_json_round_trip
    (self : ClassifierConfFactory) (base c : pyclass) (conf : pyinst)
    (logger : pyobj) :
  In base [SupervisedClassifierConf; SemiSupervisedClassifierConf;
           UnsupervisedClassifierConf] ->
  leaf_of base c = true ->
  class_getattr c "from_json" = Some LeafFromJson ->
  methods self !! class_name c = Some c ->
  ((exists args, construct c args = Ok conf) \/
   (exists method args logger0,
      class_name c = method +:+ "Conf" /\
      from_args HyperparamConf_from_args self method args logger0 = Ok conf)) ->
  (forall hp, getattr conf "hyperparam_conf" = Ok hp ->
              HyperparamConf_from_json (export_obj hp) c logger = Ok hp) ->
  exists (obj : record) (conf' : pyinst) (name multiclass hyper : pyobj),
    export export_obj conf = Ok obj /\
    from_json HyperparamConf_from_json self obj logger = Ok conf' /\
    inst_class conf' = inst_class conf /\
    getattr conf "model_class_name" = Ok name /\
    getattr conf' "model_class_name" = Ok name /\
    getattr conf "multiclass" = Ok multiclass /\
    getattr conf' "multiclass" = Ok multiclass /\
    getattr conf "hyperparam_conf" = Ok hyper /\
    getattr conf' "hyperparam_conf" = Ok hyper.
Proof.
  intros Hb Hl Hfj Hreg Hprod Hhyper.
  assert (Hc : exists args, construct c args = Ok conf).
  { destruct Hprod as [H | (method & args & lg0 & Hn & Hfa)]; [exact H|].
    destruct (from_args_constructs _ _ _ _ _ Hfa) as (c' & args' & Hm & Hc').
    rewrite <- Hn, Hreg in Hm. injection Hm as <-. eauto. }
  destruct Hc as [args Hc].
  destruct (construct_leaf_inv _ _ _ _ Hb Hl Hc)
    as (mc & hp & lg & -> & Hmc & Hinit & Hre).
  destruct (getattr_new c mc hp lg) as (Gmc & Ghp & Gname & _ & _ & Gcls).
  exists (exported export_obj c mc hp),
    (new c (if pyclass_eqb base UnsupervisedClassifierConf
            then Val (PyBool false) else mc) hp logger),
    (Val (PyStr (supplied_model c))), mc, hp.
  split; [apply export_new|].
  split.
  { unfold from_json.
    replace (getitem (exported export_obj c mc hp) "__type__")
      with (Ok (Val (PyStr (class_name c))) : result pyobj) by reflexivity.
    cbn [result_bind methods_getitem]. rewrite Hreg. cbn [result_bind].
    replace (getitem (exported export_obj c mc hp) "hyperparam_conf")
      with (Ok (export_obj hp) : result pyobj) by reflexivity.
    cbn [result_bind]. rewrite (Hhyper hp Ghp). cbn [result_bind].
    unfold class_from_json. rewrite Hfj. cbn [result_bind].
    replace (getitem (exported export_obj c mc hp) "multiclass")
      with (Ok mc : result pyobj) by reflexivity.
    cbn [result_bind]. unfold Leaf_from_json. rewrite Hinit.
    specialize (Hre mc hp logger).
    cbn [In] in Hb. destruct Hb as [<-|[<-|[<-|[]]]]; exact Hre. }
  split; [reflexivity|].
  split; [exact Gname|]. split; [reflexivity|].
  split; [exact Gmc|].
  split.
  { cbn [In] in Hb. destruct Hb as [<-|[<-|[<-|[]]]];
      [reflexivity | reflexivity | rewrite Hmc by reflexivity; reflexivity]. }
  split; [exact Ghp | reflexivity].
Qed.
End RoundTrip.

Example construct_samples :
  construct LogisticRegressionConf [Val (PyBool false); Ext 1; Ext 2]
    = Ok sample_supervised /\
  construct IsolationForestConf [Ext 1; Ext 2] = Ok sample_unsupervised /\
  construct IsolationForestConf [Val (PyBool true); Ext 1; Ext 2]
    = Raise (TypeError "__init__() takes 3 positional arguments but 4 were given").
Proof. repeat split; vm_compute; reflexivity. Qed.

Example int_of_decimal_samples :
  int_of_decimal "-1" = Some (-1) /\
  int_of_decimal " +1_000 " = Some 1000 /\
  int_of_decimal "007" = Some 7 /\
  int_of_decimal "1__0" = None /\
  int_of_decimal "_1" = None /\
  int_of_decimal "1_" = None /\
  int_of_decimal "- 1" = None /\
  int_of_decimal "+" = None /\
  int_of_decimal " " = None /\
  int_of_decimal "1 0" = None /\
  int_of_decimal "ransomware" = None.
Proof. vm_compute. repeat split; reflexivity. Qed.

Example supervision_samples :
  call_get_supervision int_of_decimal sample_supervised sample_instances
    true true sample_store
  = (Ok (Some 4%nat), sample_store ++ [[PyInt 1; PyInt 1; PyInt 0]]) /\
  call_get_supervision int_of_decimal sample_supervised sample_instances
    false true sample_store
  = (Raise MissingAnnotations, sample_store) /\
  call_get_supervision int_of_decimal sample_semisupervised sample_instances
    false true sample_store
  = (Ok (Some 5%nat),
     sample_store ++ [[PyBool true; PyInt (-1); PyBool false];
                      [PyInt 1; PyInt (-1); PyInt 0]]) /\
  call_supervision int_of_decimal sample_unsupervised sample_instances
    true true sample_store
  = (Ok (Some 4%nat), sample_store ++ [[PyInt 1; PyInt 1; PyInt 0]]).
Proof. repeat split; vm_compute; reflexivity. Qed.

(** C1 (the code departs from the claim).  [UnsupervisedClassifierConf]
    writes its rule under the name [supervision] and defines no
    [get_supervision], so on an unsupervised configuration [get_supervision]
    is the method of [ClassifierConf]: without ground truth it returns the
    working label array of the annotations (address 0), not [None]; with
    ground truth it returns the label array as it is (address 2), not a cast
    of it.  The rule that returns [None] runs under the name [supervision]
    only. *)
Theorem unsupervised_get_supervision_not_overridden :
  construct IsolationForestConf [Ext 1; Ext 2] = Ok sample_unsupervised /\
  bound sample_unsupervised "get_supervision" = Ok (Src In_ClassifierConf) /\
  call_get_supervision int_of_decimal sample_unsupervised sample_instances
    false true sample_store
  = (Ok (Some 0%nat), sample_store) /\
  call_get_supervision int_of_decimal sample_unsupervised sample_instances
    true true sample_store
  = (Ok (Some 2%nat), sample_store) /\
  call_supervision int_of_decimal sample_unsupervised sample_instances
    false true sample_store
  = (Ok None, sample_store).
Proof. repeat split; vm_compute; reflexivity. Qed.

(** C3 as stated fails: on a label array with an unset label the
    semi-supervised extraction does not raise [MissingAnnotations]. *)
Lemma semisupervised_missing_annotations_counterexample :
  let out := call_get_supervision int_of_decimal sample_semisupervised
               sample_instances false true sample_store in
  leaf_of SemiSupervisedClassifierConf LabelPropagationConf = true /\
  construct LabelPropagationConf [Val (PyBool false); Ext 1; Ext 2]
    = Ok sample_semisupervised /\
  sample_store !! 0%nat = Some [PyBool true; PyNone; PyBool false] /\
  ~ (PyNone ∈ [PyBool true; PyNone; PyBool false] ->
     fst out = Raise MissingAnnotations).
Proof.
  cbv zeta. split; [vm_compute; reflexivity|].
  split; [vm_compute; reflexivity|]. split; [reflexivity|].
  intros H. assert (Hin : PyNone ∈ [PyBool true; PyNone; PyBool false])
    by (right; left).
  specialize (H Hin). vm_compute in H. discriminate H.
Qed.


Lemma supervised_get_supervision_witness :
  exists b : ndarray,
    call_get_supervision int_of_decimal sample_supervised sample_instances
      true true sample_store
    = (Ok (Some (length sample_store)), sample_store ++ [b]) /\
    length b = 3%nat /\
    forall i v z, [PyBool true; PyBool true; PyBool false] !! i = Some v ->
                  py_int int_of_decimal v = Ok z ->
                  b !! i = Some (PyInt z).
Proof.
  refine (proj2 (proj2 (proj2
    (supervised_get_supervision int_of_decimal LogisticRegressionConf
       (Val (PyBool false)) (Ext 1) (Ext 2) sample_supervised
       sample_instances true true sample_store
       [PyBool true; PyBool true; PyBool false] _ _ _))) _ _ _ _).
  - vm_compute. reflexivity.
  - vm_compute. reflexivity.
  - reflexivity.
  - intros H. apply list_elem_of_In in H. simpl in H.
    destruct H as [H|[H|[H|[]]]]; discriminate H.
  - vm_compute. lia.
  - reflexivity.
  - intros v H. apply list_elem_of_In in H. simpl in H.
    destruct H as [<-|[<-|[<-|[]]]]; eexists; split; reflexivity.
Defined.

Lemma semisupervised_no_label_checks_witness :
  ClassifierConf_get_supervision sample_semisupervised sample_instances
    false true sample_store = (Ok 0%nat, sample_store) /\
  fst (call_get_supervision int_of_decimal sample_semisupervised
         sample_instances false true sample_store) <> Raise MissingAnnotations /\
  fst (call_get_supervision int_of_decimal sample_semisupervised
         sample_instances false true sample_store) <> Raise AtLeastTwoClasses /\
  (exists s,
     snd (call_get_supervision int_of_decimal sample_semisupervised
            sample_instances false true sample_store) !! length sample_store
       = Some s /\
     length s = length [PyBool true; PyNone; PyBool false] /\
     forall i v, [PyBool true; PyNone; PyBool false] !! i = Some v ->
       s !! i = Some (if is_None v then PyInt (-1) else v)) /\
  (forall l,
     fst (call_get_supervision int_of_decimal sample_semisupervised
            sample_instances false true sample_store) = Ok (Some l) ->
     exists b,
       snd (call_get_supervision int_of_decimal sample_semisupervised
              sample_instances false true sample_store) !! l = Some b /\
       length b = length [PyBool true; PyNone; PyBool false] /\
       forall i, [PyBool true; PyNone; PyBool false] !! i = Some PyNone ->
                 b !! i = Some (PyInt (-1))).
Proof.
  assert (Hl : leaf_of SemiSupervisedClassifierConf LabelPropagationConf = true)
    by (vm_compute; reflexivity).
  assert (Hc : construct LabelPropagationConf [Val (PyBool false); Ext 1; Ext 2]
               = Ok sample_semisupervised) by (vm_compute; reflexivity).
  destruct (semisupervised_no_label_checks int_of_decimal LabelPropagationConf
              (Val (PyBool false)) (Ext 1) (Ext 2) sample_semisupervised
              sample_instances false true sample_store Hl Hc)
    as (H1 & H2 & H3 & H4).
  split; [exact H1|]. split; [exact H2|]. split; [exact H3|].
  exact (H4 [PyBool true; PyNone; PyBool false] eq_refl).
Defined.


Lemma semisupervised_leaves_annotations_witness :
  snd (SemiSupervisedClassifierConf_get_supervision int_of_decimal
         sample_semisupervised sample_instances false true sample_store)
    !! 0%nat = Some [PyBool true; PyNone; PyBool false] /\
  snd (SemiSupervisedClassifierConf_get_supervision int_of_decimal
         sample_semisupervised sample_instances false true sample_store)
    !! length sample_store = Some (sentinelled [PyBool true; PyNone; PyBool false]).
Proof.
  refine (proj2 (semisupervised_leaves_annotations int_of_decimal
                   sample_semisupervised sample_instances false true
                   sample_store)
            (Val (PyBool false)) [PyBool true; PyNone; PyBool false] _ _).
  - vm_compute. reflexivity.
  - reflexivity.
Defined.

Lemma unsupervised_multiclass_false_witness :
  getattr sample_unsupervised "multiclass" = Ok (Val (PyBool false)) /\
  exists hyperparam_conf logger, [Ext 1; Ext 2] = [hyperparam_conf; logger].
Proof.
  refine (unsupervised_multiclass_false IsolationForestConf [Ext 1; Ext 2]
            sample_unsupervised _ _).
  - vm_compute. reflexivity.
  - vm_compute. reflexivity.
Defined.

Lemma get_default_arity_witness :
  fst (get_default sample_hyper_get_default sample_get_class
         (Some sample_registry) "IsolationForest" (Val (PyInt 4))
         (Val (PyInt (-1))) (Val (PyBool false)) (Ext 2))
  = Raise (too_many_args 3 4).
Proof.
  refine (proj1 (get_default_arity sample_hyper_get_default sample_get_class
                   (Some sample_registry) "IsolationForest" (Val (PyInt 4))
                   (Val (PyInt (-1))) (Val (PyBool false)) (Ext 2)
                   IsolationForestConf (Ext 7) _ _) _).
  - vm_compute. reflexivity.
  - reflexivity.
  - vm_compute. reflexivity.
Defined.

Lemma get_methods_partition_witness :
  get_methods sample_get_methods sample_get_class sample_registry
    (Some supervised)
  = Ok (methods_of_paradigm sample_get_methods sample_get_class
          sample_registry supervised).
Proof.
  refine (proj1 (proj2 (get_methods_partition sample_get_methods
                          sample_get_class sample_registry _)) supervised).
  intros m H. apply list_elem_of_In in H. simpl in H.
  destruct H as [<-|[<-|[<-|[]]]]; eexists; split; vm_compute; reflexivity.
Defined.

Lemma export_from_json_round_trip_witness :
  exists (obj : record) (conf' : pyinst) (name multiclass hyper : pyobj),
    export sample_export_obj sample_supervised = Ok obj /\
    from_json sample_hyper_from_json sample_registry obj (Ext 3) = Ok conf' /\
    inst_class conf' = inst_class sample_supervised /\
    getattr sample_supervised "model_class_name" = Ok name /\
    getattr conf' "model_class_name" = Ok name /\
    getattr sample_supervised "multiclass" = Ok multiclass /\
    getattr conf' "multiclass" = Ok multiclass /\
    getattr sample_supervised "hyperparam_conf" = Ok hyper /\
    getattr conf' "hyperparam_conf" = Ok hyper.
Proof.
  refine (export_from_json_round_trip sample_hyper_from_args
            sample_hyper_from_json sample_export_obj sample_registry
            SupervisedClassifierConf LogisticRegressionConf sample_supervised
            (Ext 3) _ _ _ _ _ _).
  - simpl. auto.
  - vm_compute. reflexivity.
  - vm_compute. reflexivity.
  - vm_compute. reflexivity.
  - left. exists [Val (PyBool false); Ext 1; Ext 2]. vm_compute. reflexivity.
  - intros hp _. reflexivity.
Defined.

(** ** Construction, naming and interpretability *)

Lemma string_length_app (s t : string) :
  String.length (s +:+ t) = (String.length s + String.length t)%nat.
Proof. induction s as [|a s IH]; simpl; [reflexivity | rewrite IH; reflexivity]. Qed.

Lemma string_app_inv_tail (s1 s2 t : string) :
  s1 +:+ t = s2 +:+ t -> s1 = s2.
Proof.
  revert s2. induction s1 as [|a s1 IH]; intros [|b s2] H; simpl in H.
  - reflexivity.
  - apply (f_equal String.length) in H.
    rewrite ?string_length_app in H. simpl in H.
    rewrite ?string_length_app in H. lia.
  - apply (f_equal String.length) in H.
    rewrite ?string_length_app in H. simpl in H.
    rewrite ?string_length_app in H. lia.
  - injection H as -> H. f_equal. apply IH, H.
Qed.

Lemma endswith_spec (s suffix : string) :
  endswith s suffix = true <-> exists p, s = p +:+ suffix.
Proof.
  induction s as [|a s IH]; cbn [endswith]; rewrite orb_true_iff, String.eqb_eq.
  - split.
    + intros [<- | H]; [exists ""; reflexivity | discriminate].
    + intros ([|b p] & Hp); [left; exact Hp | discriminate].
  - rewrite IH. split.
    + intros [<- | [p ->]]; [exists ""; reflexivity|].
      exists (String a p). reflexivity.
    + intros ([|b p] & Hp); [left; exact Hp|].
      right. exists p. change (String a s = String b (p +:+ suffix)) in Hp.
      congruence.
Qed.

Lemma leaf_supplies (base c : pyclass) (self : pyinst) :
  In base [SupervisedClassifierConf; SemiSupervisedClassifierConf;
           UnsupervisedClassifierConf] ->
  leaf_of base c = true ->
  inst_class self = c ->
  call_abstract self "_get_model_class" = Ok (ModelClass (supplied_model c)) /\
  call_abstract self "is_probabilist" = Ok (supplied c "is_probabilist") /\
  call_abstract self "get_feature_importance"
    = Ok (supplied c "get_feature_importance").
Proof.
  intros Hb Hl Hc.
  destruct (leaf_of_inv _ _ Hl) as (n & d & m & p & fi & -> & _ & Hm & Hp & Hf).
  assert (Hmod : In base module_classes).
  { unfold module_classes. cbn [In] in Hb |- *. tauto. }
  unfold call_abstract, bound, supplied_model, supplied. rewrite Hc.
  rewrite !class_getattr_subclass by exact Hmod.
  cbn [class_dict]. rewrite Hm, Hp, Hf. cbn [result_bind]. auto.
Qed.

(** X1.  What construction establishes for every leaf of a paradigm: the
    stored model class is the one the leaf resolves, [model_class_name] is
    its name, the stored [probabilist] and [feature_importance] are what the
    leaf's operations return, and [accept_sparse] is [False]. *)
Theorem construct_establishes_characteristics
    (base c : pyclass) (args : list pyobj) (self : pyinst) :
  In base [SupervisedClassifierConf; SemiSupervisedClassifierConf;
           UnsupervisedClassifierConf] ->
  leaf_of base c = true ->
  construct c args = Ok self ->
  inst_class self = c /\
  (exists m,
     call_abstract self "_get_model_class" = Ok (ModelClass m) /\
     getattr self "model_class" = Ok (ModelClass m) /\
     getattr self "model_class_name" = Ok (Val (PyStr m))) /\
  getattr self "probabilist" = call_abstract self "is_probabilist" /\
  getattr self "feature_importance"
    = call_abstract self "get_feature_importance" /\
  getattr self "accept_sparse" = Ok (Val (PyBool false)).
Proof.
  intros Hb Hl Hc.
  destruct (construct_leaf_inv _ _ _ _ Hb Hl Hc) as (mc & hp & lg & -> & _).
  destruct (leaf_supplies base c (new c mc hp lg) Hb Hl eq_refl)
    as (Hm & Hp & Hf).
  split; [reflexivity|]. split.
  { exists (supplied_model c). split; [exact Hm|]. split; reflexivity. }
  rewrite Hp, Hf. repeat split; reflexivity.
Qed.

Lemma construct_establishes_characteristics_witness :
  inst_class sample_supervised = LogisticRegressionConf /\
  (exists m,
     call_abstract sample_supervised "_get_model_class" = Ok (ModelClass m) /\
     getattr sample_supervised "model_class" = Ok (ModelClass m) /\
     getattr sample_supervised "model_class_name" = Ok (Val (PyStr m))) /\
  getattr sample_supervised "probabilist"
    = call_abstract sample_supervised "is_probabilist" /\
  getattr sample_supervised "feature_importance"
    = call_abstract sample_supervised "get_feature_importance" /\
  getattr sample_supervised "accept_sparse" = Ok (Val (PyBool false)).
Proof.
  refine (construct_establishes_characteristics SupervisedClassifierConf
            LogisticRegressionConf [Val (PyBool false); Ext 1; Ext 2]
            sample_supervised _ _ _).
  - cbn [In]. auto.
  - vm_compute. reflexivity.
  - vm_compute. reflexivity.
Defined.

Lemma get_exp_name_new (c : pyclass) (mc hp lg : pyobj) :
  ClassifierConf_get_exp_name (new c mc hp lg) =
  Ok (Val (PyStr (if truthy mc then supplied_model c +:+ "__Multiclass"
                  else supplied_model c))).
Proof.
  unfold ClassifierConf_get_exp_name.
  destruct (getattr_new c mc hp lg) as (Hmc & _ & Hn & _).
  rewrite Hn. cbn [result_bind]. rewrite Hmc. cbn [result_bind].
  destruct (truthy mc); reflexivity.
Qed.

Lemma get_exp_name_injective
    (base1 base2 c1 c2 : pyclass) (args1 args2 : list pyobj)
    (self1 self2 : pyinst) (m1 m2 mc1 mc2 : pyobj) :
  In base1 [SupervisedClassifierConf; SemiSupervisedClassifierConf;
            UnsupervisedClassifierConf] ->
  In base2 [SupervisedClassifierConf; SemiSupervisedClassifierConf;
            UnsupervisedClassifierConf] ->
  leaf_of base1 c1 = true -> leaf_of base2 c2 = true ->
  construct c1 args1 = Ok self1 -> construct c2 args2 = Ok self2 ->
  getattr self1 "model_class_name" = Ok m1 ->
  getattr self2 "model_class_name" = Ok m2 ->
  getattr self1 "multiclass" = Ok mc1 ->
  getattr self2 "multiclass" = Ok mc2 ->
  (forall n, m1 = Val (PyStr n) \/ m2 = Val (PyStr n) ->
             endswith n "__Multiclass" = false) ->
  ClassifierConf_get_exp_name self1 = ClassifierConf_get_exp_name self2 ->
  m1 = m2 /\ truthy mc1 = truthy mc2.
Proof.
  intros Hb1 Hb2 Hl1 Hl2 Hc1 Hc2 Hm1 Hm2 Hmc1 Hmc2 Hsuf.
  destruct (construct_leaf_inv _ _ _ _ Hb1 Hl1 Hc1) as (x1 & hp1 & lg1 & -> & _).
  destruct (construct_leaf_inv _ _ _ _ Hb2 Hl2 Hc2) as (x2 & hp2 & lg2 & -> & _).
  rewrite !get_exp_name_new.
  destruct (getattr_new c1 x1 hp1 lg1) as (G1 & _ & N1 & _).
  destruct (getattr_new c2 x2 hp2 lg2) as (G2 & _ & N2 & _).
  rewrite N1 in Hm1. rewrite N2 in Hm2. rewrite G1 in Hmc1. rewrite G2 in Hmc2.
  injection Hm1 as <-. injection Hm2 as <-.
  injection Hmc1 as <-. injection Hmc2 as <-.
  destruct (truthy x1), (truthy x2); intros [= H].
  - apply string_app_inv_tail in H. rewrite H. auto.
  - exfalso. specialize (Hsuf (supplied_model c2) (or_intror eq_refl)).
    apply not_true_iff_false in Hsuf. apply Hsuf, endswith_spec.
    exists (supplied_model c1). symmetry. exact H.
  - exfalso. specialize (Hsuf (supplied_model c1) (or_introl eq_refl)).
    apply not_true_iff_false in Hsuf. apply Hsuf, endswith_spec.
    exists (supplied_model c2). exact H.
  - rewrite H. auto.
Qed.

(** X2.  The experiment name of a leaf configuration is the name of its model
    class, followed by [__Multiclass] exactly when [multiclass] is true.  Two
    configurations that differ in the model class name or in the truth of
    the flag have different experiment names, as long as no model class
    name itself ends with [__Multiclass]. *)
Theorem get_exp_name_separates
    (base1 base2 c1 c2 : pyclass) (args1 args2 : list pyobj)
    (self1 self2 : pyinst) (m1 m2 mc1 mc2 : pyobj) :
  In base1 [SupervisedClassifierConf; SemiSupervisedClassifierConf;
            UnsupervisedClassifierConf] ->
  In base2 [SupervisedClassifierConf; SemiSupervisedClassifierConf;
            UnsupervisedClassifierConf] ->
  leaf_of base1 c1 = true -> leaf_of base2 c2 = true ->
  construct c1 args1 = Ok self1 -> construct c2 args2 = Ok self2 ->
  getattr self1 "model_class_name" = Ok m1 ->
  getattr self2 "model_class_name" = Ok m2 ->
  getattr self1 "multiclass" = Ok mc1 ->
  getattr self2 "multiclass" = Ok mc2 ->
  (forall n, m1 = Val (PyStr n) \/ m2 = Val (PyStr n) ->
             endswith n "__Multiclass" = false) ->
  (exists n, m1 = Val (PyStr n) /\
     ClassifierConf_get_exp_name self1 =
     Ok (Val (PyStr (if truthy mc1 then n +:+ "__Multiclass" else n)))) /\
  (m1 <> m2 \/ truthy mc1 <> truthy mc2 ->
   ClassifierConf_get_exp_name self1 <> ClassifierConf_get_exp_name self2).
Proof.
  intros Hb1 Hb2 Hl1 Hl2 Hc1 Hc2 Hm1 Hm2 Hmc1 Hmc2 Hsuf. split.
  - destruct (construct_leaf_inv _ _ _ _ Hb1 Hl1 Hc1)
      as (x1 & hp1 & lg1 & -> & _).
    destruct (getattr_new c1 x1 hp1 lg1) as (G1 & _ & N1 & _).
    rewrite N1 in Hm1. rewrite G1 in Hmc1.
    injection Hm1 as <-. injection Hmc1 as <-.
    eexists. split; [reflexivity|]. apply get_exp_name_new.
  - intros Hdiff Heq.
    destruct (get_exp_name_injective _ _ _ _ _ _ _ _ _ _ _ _
                Hb1 Hb2 Hl1 Hl2 Hc1 Hc2 Hm1 Hm2 Hmc1 Hmc2 Hsuf Heq).
    tauto.
Qed.

Lemma get_exp_name_separates_witness :
  ClassifierConf_get_exp_name sample_supervised
  <> ClassifierConf_get_exp_name sample_semisupervised.
Proof.
  refine (proj2 (get_exp_name_separates SupervisedClassifierConf
            SemiSupervisedClassifierConf LogisticRegressionConf
            LabelPropagationConf [Val (PyBool false); Ext 1; Ext 2]
            [Val (PyBool false); Ext 1; Ext 2] sample_supervised
            sample_semisupervised (Val (PyStr "LogisticRegression"))
            (Val (PyStr "LabelPropagation")) (Val (PyBool false))
            (Val (PyBool false)) _ _ _ _ _ _ _ _ _ _ _) _).
  - cbn [In]. auto.
  - cbn [In]. auto.
  - vm_compute. reflexivity.
  - vm_compute. reflexivity.
  - vm_compute. reflexivity.
  - vm_compute. reflexivity.
  - reflexivity.
  - reflexivity.
  - reflexivity.
  - reflexivity.
  - intros n [[= <-] | [= <-]]; vm_compute; reflexivity.
  - left. discriminate.
Defined.

(** X3.  Interpretable predictions imply interpretability: whenever
    [interpretable_predictions] answers true, so does [is_interpretable];
    and [is_interpretable] answers true exactly when the feature importance
    of the configuration is ['score'] or ['weight']. *)
Theorem interpretable_predictions_is_interpretable (self : pyinst) :
  (ClassifierConf_interpretable_predictions self = Ok true ->
   ClassifierConf_is_interpretable self = Ok true) /\
  (forall fi, call_abstract self "get_feature_importance" = Ok fi ->
     ClassifierConf_is_interpretable self
       = Ok (bool_decide (fi = Val (PyStr "score") \/ fi = Val (PyStr "weight"))) /\
     ClassifierConf_interpretable_predictions self
       = Ok (bool_decide (fi = Val (PyStr "weight")))).
Proof.
  assert (Heq : forall fi s, eq_str fi s = bool_decide (fi = Val (PyStr s))).
  { intros [[|b|z|t]|n|i] s; simpl; try reflexivity.
    destruct (String.eqb_spec t s) as [-> | Hne].
    - symmetry. apply bool_decide_eq_true_2. reflexivity.
    - symmetry. apply bool_decide_eq_false_2. congruence. }
  unfold ClassifierConf_interpretable_predictions,
    ClassifierConf_is_interpretable.
  split.
  - destruct (call_abstract self "get_feature_importance") as [fi|e];
      cbn [result_bind]; [|discriminate].
    intros [= H]. cbn [existsb]. rewrite H, orb_true_r. reflexivity.
  - intros fi ->. cbn [result_bind existsb]. rewrite !Heq, orb_false_r.
    rewrite bool_decide_or. split; reflexivity.
Qed.

Lemma interpretable_predictions_is_interpretable_witness :
  ClassifierConf_is_interpretable sample_supervised = Ok true.
Proof.
  refine (proj1 (interpretable_predictions_is_interpretable sample_supervised) _).
  vm_compute. reflexivity.
Defined.

(** X4.  [get_coefs] returns [None] exactly for configurations that are not
    interpretable, whatever the model; and it returns the whole coefficient
    matrix only for weight-based configurations whose [multiclass] is true. *)
Theorem get_coefs_none_iff_not_interpretable {coef : Type}
    (self : pyinst) (model : Model coef) :
  (ClassifierConf_get_coefs self model = inr None <->
   ClassifierConf_is_interpretable self = Ok false) /\
  (forall m, ClassifierConf_get_coefs self model = inr (Some (Matrix m)) ->
     ClassifierConf_interpretable_predictions self = Ok true /\
     coef_ model = Some m /\
     exists multiclass,
       getattr self "multiclass" = Ok multiclass /\ truthy multiclass = true).
Proof.
  unfold ClassifierConf_get_coefs, ClassifierConf_is_interpretable,
    ClassifierConf_interpretable_predictions.
  destruct (call_abstract self "get_feature_importance") as [fi|e];
    cbn [result_bind existsb].
  2: { split; [split; discriminate | discriminate]. }
  destruct (eq_str fi "weight") eqn:Ew.
  - rewrite orb_true_r. split.
    + split; [|discriminate].
      destruct (getattr self "multiclass") as [mc|]; [|discriminate].
      destruct (coef_ model) as [[|row m]|]; try discriminate;
        destruct (truthy mc); discriminate.
    + intros m. destruct (getattr self "multiclass") as [mc|]; [|discriminate].
      destruct (coef_ model) as [m'|]; [|discriminate].
      destruct (truthy mc) eqn:Et.
      * intros [= <-]. eauto.
      * destruct m'; discriminate.
  - rewrite orb_false_r. destruct (eq_str fi "score") eqn:Es.
    + split; [split; [|discriminate]|].
      * destruct (feature_importances_ model); discriminate.
      * intros m. destruct (feature_importances_ model); discriminate.
    + split; [split; reflexivity | discriminate].
Qed.

Lemma get_coefs_none_iff_not_interpretable_witness :
  ClassifierConf_interpretable_predictions
    (new LogisticRegressionConf (Val (PyBool true)) (Ext 1) (Ext 2)) = Ok true /\
  coef_ {| coef_ := Some [[1; 2]; [3; 4]]; feature_importances_ := None |}
  = Some [[1; 2]; [3; 4]] /\
  exists multiclass,
    getattr (new LogisticRegressionConf (Val (PyBool true)) (Ext 1) (Ext 2))
      "multiclass" = Ok multiclass /\
    truthy multiclass = true.
Proof.
  refine (proj2 (get_coefs_none_iff_not_interpretable
            (new LogisticRegressionConf (Val (PyBool true)) (Ext 1) (Ext 2))
            {| coef_ := Some [[1; 2]; [3; 4]]; feature_importances_ := None |})
            [[1; 2]; [3; 4]] _).
  vm_compute. reflexivity.
Defined.

(** ** Classes of labels and the supervised extraction *)

Lemma py_eqb_refl (x : pyval) : py_eqb x x = true.
Proof.
  destruct x; simpl; auto using Z.eqb_refl, String.eqb_refl.
Qed.

Lemma py_eqb_sym (x y : pyval) : py_eqb x y = py_eqb y x.
Proof.
  destruct x, y; simpl; auto using Z.eqb_sym, String.eqb_sym.
Qed.

Lemma py_eqb_trans (x y z : pyval) :
  py_eqb x y = true -> py_eqb y z = true -> py_eqb x z = true.
Proof.
  destruct x, y, z; simpl; try discriminate; auto;
    rewrite ?Z.eqb_eq, ?String.eqb_eq; congruence.
Qed.

Lemma py_set_subset (a : list pyval) (y : pyval) : y ∈ py_set a -> y ∈ a.
Proof.
  induction a as [|x a IH]; simpl; [auto|].
  destruct (existsb (py_eqb x) (py_set a)).
  - intros H. right. auto.
  - intros [-> | H]%elem_of_cons; [left | right; auto].
Qed.

Lemma py_set_represents (a : list pyval) (x : pyval) :
  x ∈ a -> exists y, y ∈ py_set a /\ py_eqb x y = true.
Proof.
  induction a as [|x' a IH]; [intros H; inversion H|].
  intros [-> | H]%elem_of_cons; simpl.
  - destruct (existsb (py_eqb x') (py_set a)) eqn:E.
    + apply existsb_exists in E as (y & Hy & Hxy). exists y.
      split; [apply list_elem_of_In, Hy | exact Hxy].
    + exists x'. split; [left | apply py_eqb_refl].
  - destruct (IH H) as (y & Hy & Hxy). exists y. split; [|exact Hxy].
    destruct (existsb (py_eqb x') (py_set a)); [exact Hy | right; exact Hy].
Qed.

(** Fewer than two classes: all elements are equal under [==]. *)
Lemma py_set_single_class (a : list pyval) :
  (length (py_set a) < 2)%nat <->
  forall x y, x ∈ a -> y ∈ a -> py_eqb x y = true.
Proof.
  split.
  - intros Hlen x y Hx Hy.
    destruct (py_set_represents a x Hx) as (rx & Hrx & Hx').
    destruct (py_set_represents a y Hy) as (ry & Hry & Hy').
    assert (rx = ry) as ->.
    { destruct (py_set a) as [|r [|r' s]]; simpl in Hlen; [inversion Hrx | | lia].
      apply list_elem_of_singleton in Hrx, Hry. congruence. }
    eapply py_eqb_trans; [exact Hx'|]. rewrite py_eqb_sym. exact Hy'.
  - induction a as [|x a IH]; intros H; simpl; [lia|].
    assert (IH' : (length (py_set a) < 2)%nat).
    { apply IH. intros; apply H; right; assumption. }
    destruct (existsb (py_eqb x) (py_set a)) eqn:E; [exact IH'|].
    destruct (py_set a) as [|r s] eqn:Es; [simpl; lia|].
    exfalso. assert (Hr : r ∈ a) by (apply py_set_subset; rewrite Es; left).
    simpl in E. rewrite (H x r) in E; [discriminate | left | right; exact Hr].
Qed.

Lemma sentinelled_labeled (a : list pyval) : PyNone ∉ a -> sentinelled a = a.
Proof.
  intros H. rewrite sentinelled_map.
  induction a as [|x a IH]; [reflexivity|].
  apply not_elem_of_cons in H as [Hx Ha]. rewrite fmap_cons, (IH Ha).
  destruct x; simpl; congruence.
Qed.

Section SupervisionProperties.
Variable int_of_str : string -> option Z.

Lemma SupervisedClassifierConf_get_supervision_miss
    self inst gt check h mc :
  getattr self "multiclass" = Ok mc ->
  h !! Annotations_get_supervision (get_annotations inst gt) mc = None ->
  SupervisedClassifierConf_get_supervision int_of_str self inst gt check h =
  (Raise InvalidAddress, h).
Proof.
  intros Hmc Ha. unfold SupervisedClassifierConf_get_supervision.
  unfold bind at 1. rewrite (ClassifierConf_get_supervision_run _ _ _ _ _ _ Hmc).
  unfold bind. rewrite (load_miss _ _ Ha). reflexivity.
Qed.

Lemma call_get_supervision_supervised
    (c : pyclass) (mc hp lg : pyobj) (inst : Instances) (gt check : bool)
    (h : heap) :
  leaf_of SupervisedClassifierConf c = true ->
  call_get_supervision int_of_str (new c mc hp lg) inst gt check h =
  let '(r, h') := SupervisedClassifierConf_get_supervision int_of_str
                    (new c mc hp lg) inst gt check h in
  (match r with Ok l => Ok (Some l) | Raise e => Raise e end, h').
Proof.
  intros Hl.
  destruct (bound_get_supervision _ _ (new c mc hp lg) Hl eq_refl) as (Hb & _).
  unfold call_get_supervision, bind at 1. unfold lift.
  rewrite Hb by reflexivity. unfold bind.
  destruct (SupervisedClassifierConf_get_supervision _ _ _ _ _ _) as [[l|e] h'];
    reflexivity.
Qed.

(** X5.  With [check] on, the supervised extraction raises
    [AtLeastTwoClasses] exactly when every label is set and all labels are
    equal under [==] (so [True] and [1] count as one class, and the empty
    dataset has too few classes). *)
Theorem supervised_at_least_two_classes_iff
    (c : pyclass) (multiclass hyperparam_conf logger : pyobj) (self : pyinst)
    (instances : Instances) (ground_truth : bool) (h : heap) (a : ndarray) :
  leaf_of SupervisedClassifierConf c = true ->
  construct c [multiclass; hyperparam_conf; logger] = Ok self ->
  h !! Annotations_get_supervision
         (get_annotations instances ground_truth) multiclass = Some a ->
  fst (call_get_supervision int_of_str self instances ground_truth true h)
    = Raise AtLeastTwoClasses <->
  (PyNone ∉ a) /\ forall x y, x ∈ a -> y ∈ a -> py_eqb x y = true.
Proof.
  intros Hl Hc Ha.
  destruct (construct_leaf _ _ multiclass hyperparam_conf logger Hl) as [H3 _].
  rewrite H3 in Hc by tauto. injection Hc as <-.
  destruct (getattr_new c multiclass hyperparam_conf logger) as (Hmc & _).
  rewrite (call_get_supervision_supervised _ _ _ _ _ _ _ _ Hl).
  rewrite (SupervisedClassifierConf_get_supervision_run _ _ _ _ _ _ _ _ Hmc Ha).
  rewrite <- py_set_single_class, <- np_all_ne_None, <- Nat.ltb_lt.
  destruct (np_all (ne_None a)); simpl negb; cbv iota.
  - simpl andb. destruct (length (py_set a) <? 2)%nat; simpl.
    + tauto.
    + split; [|intros [_ H]; discriminate H].
      destruct (truthy multiclass); simpl; [discriminate|].
      destruct (map_result _ _) as [b|e] eqn:Em; simpl; [discriminate|].
      intros [= ->].
      apply (map_result_error _ (fun e => conversion_error e = true)) in Em;
        [discriminate Em | apply to_int64_error].
  - simpl. split; [discriminate | intros [H _]; discriminate H].
Qed.


(** X6.  The supervised extraction never writes to an array of the store: on
    success the store has grown by the result array alone, at the address
    returned, and on failure the store is as it was. *)
Theorem supervised_extraction_store
    (self : pyinst) (instances : Instances) (ground_truth check : bool)
    (h : heap) :
  match SupervisedClassifierConf_get_supervision int_of_str self instances
          ground_truth check h with
  | (Ok r, h') => r = length h /\ exists b, h' = h ++ [b]
  | (Raise _, h') => h' = h
  end.
Proof.
  destruct (getattr self "multiclass") as [mc|e] eqn:Hmc.
  - destruct (h !! Annotations_get_supervision
                     (get_annotations instances ground_truth) mc)
      as [a|] eqn:Ha.
    + rewrite (SupervisedClassifierConf_get_supervision_run
                 _ _ _ _ _ _ _ _ Hmc Ha).
      destruct (negb _); [reflexivity|].
      destruct (check && _); [reflexivity|].
      destruct (truthy mc); [eauto|].
      destruct (map_result _ _); [eauto | reflexivity].
    + rewrite (SupervisedClassifierConf_get_supervision_miss
                 _ _ _ _ _ _ Hmc Ha). reflexivity.
  - unfold SupervisedClassifierConf_get_supervision,
      ClassifierConf_get_supervision, bind, lift. rewrite Hmc. reflexivity.
Qed.

(** X7.  The empty dataset and the [check] flag: with [check] on, an empty
    label array has too few classes; with [check] off the number of classes
    is not looked at, so an empty or single-class array that is fully
    labeled is cast and returned. *)
Theorem supervised_check_flag
    (c : pyclass) (multiclass hyperparam_conf logger : pyobj) (self : pyinst)
    (instances : Instances) (ground_truth : bool) (h : heap) (a : ndarray) :
  leaf_of SupervisedClassifierConf c = true ->
  construct c [multiclass; hyperparam_conf; logger] = Ok self ->
  h !! Annotations_get_supervision
         (get_annotations instances ground_truth) multiclass = Some a ->
  (a = [] ->
   call_get_supervision int_of_str self instances ground_truth true h
   = (Raise AtLeastTwoClasses, h)) /\
  (a = [] ->
   call_get_supervision int_of_str self instances ground_truth false h
   = (Ok (Some (length h)), h ++ [[]])) /\
  (PyNone ∉ a ->
   (forall v, v ∈ a ->
              exists z, py_int int_of_str v = Ok z /\ fits_int64 z = true) ->
   exists b,
     call_get_supervision int_of_str self instances ground_truth false h
     = (Ok (Some (length h)), h ++ [b]) /\ length b = length a).
Proof.
  intros Hl Hc Ha.
  destruct (construct_leaf _ _ multiclass hyperparam_conf logger Hl) as [H3 _].
  rewrite H3 in Hc by tauto. injection Hc as <-.
  destruct (getattr_new c multiclass hyperparam_conf logger) as (Hmc & _).
  rewrite !(call_get_supervision_supervised _ _ _ _ _ _ _ _ Hl).
  rewrite !(SupervisedClassifierConf_get_supervision_run _ _ _ _ _ _ _ _ Hmc Ha).
  split; [|split].
  - intros ->. reflexivity.
  - intros ->. simpl. destruct (truthy multiclass); reflexivity.
  - intros Hn Hcode. apply np_all_ne_None in Hn. rewrite Hn. simpl.
    destruct (truthy multiclass).
    + eexists. split; [reflexivity|]. apply length_fmap.
    + assert (Hall : Forall (fun v => exists y, to_int64 int_of_str v = Ok y) a).
      { apply Forall_forall. intros v Hv. destruct (Hcode v Hv) as (z & Hz & Hfit).
        exists (PyInt z). unfold to_int64. rewrite Hz. simpl. rewrite Hfit.
        reflexivity. }
      destruct (map_result_total _ _ Hall) as [b Hb]. rewrite Hb.
      exists b. split; [reflexivity|]. apply (map_result_lookup _ _ _ Hb).
Qed.

End SupervisionProperties.

Lemma supervised_at_least_two_classes_iff_witness :
  fst (call_get_supervision int_of_decimal sample_supervised sample_instances
         true true [[]; []; [PyBool true; PyInt 1]; []])
    = Raise AtLeastTwoClasses <->
  (PyNone ∉ [PyBool true; PyInt 1]) /\
  forall x y, x ∈ [PyBool true; PyInt 1] -> y ∈ [PyBool true; PyInt 1] ->
              py_eqb x y = true.
Proof.
  refine (supervised_at_least_two_classes_iff int_of_decimal
            LogisticRegressionConf (Val (PyBool false)) (Ext 1) (Ext 2)
            sample_supervised sample_instances true
            [[]; []; [PyBool true; PyInt 1]; []] [PyBool true; PyInt 1] _ _ _).
  - vm_compute. reflexivity.
  - vm_compute. reflexivity.
  - reflexivity.
Defined.

Lemma supervised_check_flag_witness :
  exists b,
    call_get_supervision int_of_decimal sample_supervised sample_instances
      true false [[]; []; [PyBool true; PyBool true]; []]
    = (Ok (Some 4%nat), [[]; []; [PyBool true; PyBool true]; []] ++ [b]) /\
    length b = 2%nat.
Proof.
  refine (proj2 (proj2 (supervised_check_flag int_of_decimal
            LogisticRegressionConf (Val (PyBool false)) (Ext 1) (Ext 2)
            sample_supervised sample_instances true
            [[]; []; [PyBool true; PyBool true]; []] [PyBool true; PyBool true]
            _ _ _)) _ _).
  - vm_compute. reflexivity.
  - vm_compute. reflexivity.
  - reflexivity.
  - intros H. apply list_elem_of_In in H. simpl in H.
    destruct H as [H|[H|[]]]; discriminate H.
  - intros v H. apply list_elem_of_In in H. simpl in H.
    destruct H as [<-|[<-|[]]]; eexists; split; reflexivity.
Defined.

(** ** The three extraction rules compared *)

Section ParadigmComparison.
Variable int_of_str : string -> option Z.

Lemma call_get_supervision_semisupervised
    (c : pyclass) (mc hp lg : pyobj) (inst : Instances) (gt check : bool)
    (h : heap) :
  leaf_of SemiSupervisedClassifierConf c = true ->
  call_get_supervision int_of_str (new c mc hp lg) inst gt check h =
  let '(r, h') := SemiSupervisedClassifierConf_get_supervision int_of_str
                    (new c mc hp lg) inst gt check h in
  (match r with Ok l => Ok (Some l) | Raise e => Raise e end, h').
Proof.
  intros Hl.
  destruct (bound_get_supervision _ _ (new c mc hp lg) Hl eq_refl) as (_ & Hb & _).
  unfold call_get_supervision, bind at 1. unfold lift.
  rewrite Hb by reflexivity. unfold bind.
  destruct (SemiSupervisedClassifierConf_get_supervision _ _ _ _ _ _)
    as [[l|e] h']; reflexivity.
Qed.

(** X8.  On a fully labeled array and with a falsy [multiclass], the
    semi-supervised extraction and the supervised extraction without the
    class-count check agree: they return arrays with the same content, or
    raise the same error. *)
Theorem semisupervised_agrees_with_supervised
    (cs cm : pyclass) (multiclass hp lg hp' lg' : pyobj) (ss sm : pyinst)
    (instances : Instances) (ground_truth check : bool)
    (h : heap) (a : ndarray) :
  leaf_of SupervisedClassifierConf cs = true ->
  leaf_of SemiSupervisedClassifierConf cm = true ->
  construct cs [multiclass; hp; lg] = Ok ss ->
  construct cm [multiclass; hp'; lg'] = Ok sm ->
  truthy multiclass = false ->
  h !! Annotations_get_supervision
         (get_annotations instances ground_truth) multiclass = Some a ->
  PyNone ∉ a ->
  match call_get_supervision int_of_str ss instances ground_truth false h,
        call_get_supervision int_of_str sm instances ground_truth check h with
  | (Ok (Some ls), hs), (Ok (Some lm), hm) =>
      exists b, hs !! ls = Some b /\ hm !! lm = Some b
  | (Raise e1, _), (Raise e2, _) => e1 = e2
  | _, _ => False
  end.
Proof.
  intros Hs Hm Hcs Hcm Hmc Ha Hn.
  destruct (construct_leaf _ _ multiclass hp lg Hs) as [H3 _].
  rewrite H3 in Hcs by tauto. injection Hcs as <-.
  destruct (construct_leaf _ _ multiclass hp' lg' Hm) as [H3' _].
  rewrite H3' in Hcm by tauto. injection Hcm as <-.
  rewrite (call_get_supervision_supervised _ _ _ _ _ _ _ _ _ Hs).
  rewrite (call_get_supervision_semisupervised _ _ _ _ _ _ _ _ Hm).
  rewrite (SupervisedClassifierConf_get_supervision_run _ _ _ _ _ _ _ _
             (proj1 (getattr_new cs multiclass hp lg)) Ha).
  rewrite (SemiSupervisedClassifierConf_get_supervision_run _ _ _ _ _ _ _ _
             (proj1 (getattr_new cm multiclass hp' lg')) Ha).
  rewrite (sentinelled_labeled _ Hn).
  apply np_all_ne_None in Hn. rewrite Hn, Hmc. simpl.
  destruct (map_result _ _) as [b|e]; [|reflexivity].
  exists b. split.
  - apply lookup_new.
  - replace (h ++ [a; b]) with ((h ++ [a]) ++ [b]) by (rewrite <- app_assoc; reflexivity).
    replace (S (length h)) with (length (h ++ [a]))
      by (rewrite length_app; simpl; lia).
    apply lookup_new.
Qed.

(** X9.  The sentinel is not reserved: in the array the semi-supervised
    extraction returns, a position holds -1 exactly when its label is unset
    or has the integer value -1, so the two cannot be told apart. *)
Theorem semisupervised_sentinel_collision
    (c : pyclass) (multiclass hyperparam_conf logger : pyobj) (self : pyinst)
    (instances : Instances) (ground_truth check : bool)
    (h h' : heap) (a : ndarray) (l : loc) :
  leaf_of SemiSupervisedClassifierConf c = true ->
  construct c [multiclass; hyperparam_conf; logger] = Ok self ->
  h !! Annotations_get_supervision
         (get_annotations instances ground_truth) multiclass = Some a ->
  call_get_supervision int_of_str self instances ground_truth check h
  = (Ok (Some l), h') ->
  exists b,
    h' !! l = Some b /\
    forall i,
      b !! i = Some (PyInt (-1)) <->
      a !! i = Some PyNone \/
      exists v, a !! i = Some v /\ py_int int_of_str v = Ok (-1).
Proof.
  intros Hl Hc Ha.
  destruct (construct_leaf _ _ multiclass hyperparam_conf logger Hl) as [H3 _].
  rewrite H3 in Hc by tauto. injection Hc as <-.
  rewrite (call_get_supervision_semisupervised _ _ _ _ _ _ _ _ Hl).
  rewrite (SemiSupervisedClassifierConf_get_supervision_run _ _ _ _ _ _ _ _
             (proj1 (getattr_new c multiclass hyperparam_conf logger)) Ha).
  destruct (map_result _ _) as [b|e] eqn:Em; [|discriminate].
  intros [= <- <-]. exists b. split.
  { replace (h ++ [sentinelled a; b]) with ((h ++ [sentinelled a]) ++ [b])
      by (rewrite <- app_assoc; reflexivity).
    replace (S (length h)) with (length (h ++ [sentinelled a]))
      by (rewrite length_app; simpl; lia).
    apply lookup_new. }
  destruct (map_result_lookup _ _ _ Em) as [Hlen Hlk].
  rewrite sentinelled_map in Hlk, Hlen. rewrite length_fmap in Hlen.
  intros i. destruct (a !! i) as [v|] eqn:Ei.
  - destruct (Hlk i (if is_None v then PyInt (-1) else v)) as (y & Hy & Hb).
    { rewrite list_lookup_fmap, Ei. reflexivity. }
    rewrite Hb. destruct v as [|x|z|s]; simpl in Hy.
    + injection Hy as <-. split; [auto | reflexivity].
    + unfold to_int64 in Hy. simpl in Hy.
      destruct (fits_int64 _); [|discriminate]. injection Hy as <-.
      split.
      * intros [= Hz]. right. eexists. split; [reflexivity|].
        simpl. congruence.
      * intros [[=] | (v & [= <-] & Hv)]. simpl in Hv. congruence.
    + unfold to_int64 in Hy. simpl in Hy.
      destruct (fits_int64 _); [|discriminate]. injection Hy as <-.
      split.
      * intros [= Hz]. right. eexists. split; [reflexivity|].
        simpl. congruence.
      * intros [[=] | (v & [= <-] & Hv)]. simpl in Hv. congruence.
    + unfold to_int64 in Hy. simpl in Hy.
      destruct (int_of_str s) as [z|] eqn:Es; simpl in Hy; [|discriminate].
      destruct (fits_int64 _); [|discriminate]. injection Hy as <-.
      split.
      * intros [= Hz]. right. eexists. split; [reflexivity|].
        simpl. rewrite Es. congruence.
      * intros [[=] | (v & [= <-] & Hv)]. simpl in Hv. rewrite Es in Hv.
        congruence.
  - split.
    + intros Hb. apply lookup_lt_Some in Hb. apply lookup_ge_None in Ei. lia.
    + intros [[=] | (v & [=] & _)].
Qed.

(** X10.  The semi-supervised extraction casts to integers whatever
    [multiclass] says: a family label that is not a numeral makes it fail
    with a conversion error, where the supervised extraction with a truthy
    [multiclass] returns the labels as strings. *)
Theorem semisupervised_family_labels
    (cs cm : pyclass) (multiclass hp lg hp' lg' : pyobj) (ss sm : pyinst)
    (instances : Instances) (ground_truth check : bool)
    (h : heap) (a : ndarray) (s : string) :
  leaf_of SupervisedClassifierConf cs = true ->
  leaf_of SemiSupervisedClassifierConf cm = true ->
  construct cs [multiclass; hp; lg] = Ok ss ->
  construct cm [multiclass; hp'; lg'] = Ok sm ->
  truthy multiclass = true ->
  h !! Annotations_get_supervision
         (get_annotations instances ground_truth) multiclass = Some a ->
  PyNone ∉ a ->
  PyStr s ∈ a ->
  int_of_str s = None ->
  call_get_supervision int_of_str ss instances ground_truth false h
  = (Ok (Some (length h)), h ++ [(fun v => PyStr (py_str v)) <$> a]) /\
  exists e,
    fst (call_get_supervision int_of_str sm instances ground_truth check h)
    = Raise e /\ conversion_error e = true.
Proof.
  intros Hs Hm Hcs Hcm Hmc Ha Hn Hin Hs0.
  destruct (construct_leaf _ _ multiclass hp lg Hs) as [H3 _].
  rewrite H3 in Hcs by tauto. injection Hcs as <-.
  destruct (construct_leaf _ _ multiclass hp' lg' Hm) as [H3' _].
  rewrite H3' in Hcm by tauto. injection Hcm as <-.
  rewrite (call_get_supervision_supervised _ _ _ _ _ _ _ _ _ Hs).
  rewrite (call_get_supervision_semisupervised _ _ _ _ _ _ _ _ Hm).
  rewrite (SupervisedClassifierConf_get_supervision_run _ _ _ _ _ _ _ _
             (proj1 (getattr_new cs multiclass hp lg)) Ha).
  rewrite (SemiSupervisedClassifierConf_get_supervision_run _ _ _ _ _ _ _ _
             (proj1 (getattr_new cm multiclass hp' lg')) Ha).
  rewrite (sentinelled_labeled _ Hn).
  apply np_all_ne_None in Hn. rewrite Hn, Hmc. simpl.
  split; [reflexivity|].
  destruct (map_result_raises (to_int64 int_of_str) a (PyStr s) Hin) as [e He].
  { intros y. unfold to_int64. simpl. rewrite Hs0. discriminate. }
  rewrite He. exists e. split; [reflexivity|].
  apply (map_result_error _ (fun e => conversion_error e = true) _ _
           (to_int64_error int_of_str) He).
Qed.

(** X11.  The unsupervised rule [supervision]: without ground truth it
    returns [None] and reads nothing; with ground truth it casts the labels
    to integers without any check, so an unset label makes it fail with a
    conversion error and a fully coded array is returned whatever the number
    of classes. *)
Theorem unsupervised_supervision_rule
    (c : pyclass) (hyperparam_conf logger : pyobj) (self : pyinst)
    (instances : Instances) (check : bool) (h : heap) (a : ndarray) :
  leaf_of UnsupervisedClassifierConf c = true ->
  construct c [hyperparam_conf; logger] = Ok self ->
  call_supervision int_of_str self instances false check h = (Ok None, h) /\
  (h !! Annotations_get_supervision
          (get_annotations instances true) (Val (PyBool false)) = Some a ->
   (PyNone ∈ a ->
    exists e,
      call_supervision int_of_str self instances true check h = (Raise e, h) /\
      conversion_error e = true) /\
   ((forall v, v ∈ a ->
       exists z, py_int int_of_str v = Ok z /\ fits_int64 z = true) ->
    exists b,
      call_supervision int_of_str self instances true check h
      = (Ok (Some (length h)), h ++ [b]) /\
      length b = length a)).
Proof.
  intros Hl Hc.
  destruct (unsupervised_leaf_supervision int_of_str _ _ _ _ instances check h a Hl Hc)
    as [H1 H2].
  split; [exact H1|]. intros Ha. rewrite (H2 Ha). split.
  - intros Hin.
    destruct (map_result_raises (to_int64 int_of_str) a PyNone Hin) as [e He].
    { intros y. discriminate. }
    rewrite He. exists e. split; [reflexivity|].
    apply (map_result_error _ (fun e => conversion_error e = true) _ _
             (to_int64_error int_of_str) He).
  - intros Hcode.
    assert (Hall : Forall (fun v => exists y, to_int64 int_of_str v = Ok y) a).
    { apply Forall_forall. intros v Hv. destruct (Hcode v Hv) as (z & Hz & Hfit).
      exists (PyInt z). unfold to_int64. rewrite Hz. simpl. rewrite Hfit.
      reflexivity. }
    destruct (map_result_total _ _ Hall) as [b Hb]. rewrite Hb.
    exists b. split; [reflexivity|]. apply (map_result_lookup _ _ _ Hb).
Qed.
End ParadigmComparison.

Lemma semisupervised_agrees_with_supervised_witness :
  match call_get_supervision int_of_decimal sample_supervised
          sample_instances true false sample_store,
        call_get_supervision int_of_decimal sample_semisupervised
          sample_instances true true sample_store with
  | (Ok (Some ls), hs), (Ok (Some lm), hm) =>
      exists b, hs !! ls = Some b /\ hm !! lm = Some b
  | (Raise e1, _), (Raise e2, _) => e1 = e2
  | _, _ => False
  end.
Proof.
  refine (semisupervised_agrees_with_supervised int_of_decimal
            LogisticRegressionConf LabelPropagationConf (Val (PyBool false))
            (Ext 1) (Ext 2) (Ext 1) (Ext 2)
            sample_supervised sample_semisupervised sample_instances
            true true sample_store [PyBool true; PyBool true; PyBool false]
            _ _ _ _ _ _ _).
  - vm_compute. reflexivity.
  - vm_compute. reflexivity.
  - vm_compute. reflexivity.
  - vm_compute. reflexivity.
  - reflexivity.
  - reflexivity.
  - intros H. apply list_elem_of_In in H. cbn [In] in H.
    destruct H as [H|[H|[H|[]]]]; discriminate H.
Defined.

Lemma semisupervised_sentinel_collision_witness :
  exists b,
    ([[PyInt (-1); PyNone; PyStr "-1"];
      [PyInt (-1); PyInt (-1); PyStr "-1"];
      [PyInt (-1); PyInt (-1); PyInt (-1)]] : heap) !! 2%nat = Some b /\
    forall i,
      b !! i = Some (PyInt (-1)) <->
      [PyInt (-1); PyNone; PyStr "-1"] !! i = Some PyNone \/
      exists v, [PyInt (-1); PyNone; PyStr "-1"] !! i = Some v /\
                py_int int_of_decimal v = Ok (-1).
Proof.
  refine (semisupervised_sentinel_collision int_of_decimal
            LabelPropagationConf (Val (PyBool false)) (Ext 1) (Ext 2)
            sample_semisupervised sample_instances false true
            [[PyInt (-1); PyNone; PyStr "-1"]]
            [[PyInt (-1); PyNone; PyStr "-1"];
             [PyInt (-1); PyInt (-1); PyStr "-1"];
             [PyInt (-1); PyInt (-1); PyInt (-1)]]
            [PyInt (-1); PyNone; PyStr "-1"] 2%nat _ _ _ _).
  - vm_compute. reflexivity.
  - vm_compute. reflexivity.
  - reflexivity.
  - vm_compute. reflexivity.
Defined.

Lemma semisupervised_family_labels_witness :
  call_get_supervision int_of_decimal
    (new LogisticRegressionConf (Val (PyBool true)) (Ext 1) (Ext 2))
    sample_instances true false sample_store
  = (Ok (Some (length sample_store)),
     sample_store ++
     [(fun v => PyStr (py_str v)) <$>
      [PyStr "ransomware"; PyStr "spyware"; PyStr "benign"]]) /\
  exists e,
    fst (call_get_supervision int_of_decimal
           (new LabelPropagationConf (Val (PyBool true)) (Ext 1) (Ext 2))
           sample_instances true true sample_store)
    = Raise e /\ conversion_error e = true.
Proof.
  refine (semisupervised_family_labels int_of_decimal
            LogisticRegressionConf LabelPropagationConf (Val (PyBool true))
            (Ext 1) (Ext 2) (Ext 1) (Ext 2)
            (new LogisticRegressionConf (Val (PyBool true)) (Ext 1) (Ext 2))
            (new LabelPropagationConf (Val (PyBool true)) (Ext 1) (Ext 2))
            sample_instances true true sample_store
            [PyStr "ransomware"; PyStr "spyware"; PyStr "benign"]
            "ransomware" _ _ _ _ _ _ _ _ _).
  - vm_compute. reflexivity.
  - vm_compute. reflexivity.
  - vm_compute. reflexivity.
  - vm_compute. reflexivity.
  - reflexivity.
  - reflexivity.
  - intros H. apply list_elem_of_In in H. cbn [In] in H.
    destruct H as [H|[H|[H|[]]]]; discriminate H.
  - left.
  - vm_compute. reflexivity.
Defined.

Lemma unsupervised_supervision_rule_witness :
  exists b,
    call_supervision int_of_decimal sample_unsupervised sample_instances
      true true sample_store
    = (Ok (Some (length sample_store)), sample_store ++ [b]) /\
    length b = length [PyBool true; PyBool true; PyBool false].
Proof.
  refine (proj2 (proj2 (unsupervised_supervision_rule int_of_decimal
            IsolationForestConf (Ext 1) (Ext 2) sample_unsupervised
            sample_instances true sample_store
            [PyBool true; PyBool true; PyBool false] _ _) _) _).
  - vm_compute. reflexivity.
  - vm_compute. reflexivity.
  - reflexivity.
  - intros v H. apply list_elem_of_In in H. cbn [In] in H.
    destruct H as [<-|[<-|[<-|[]]]]; eexists; split; reflexivity.
Defined.

(** ** Leaves: classification and parsers; loading a record *)

Lemma issubclass_leaf (base x : pyclass) (n : string)
    (d : list (string * pyfunc)) :
  In base [SupervisedClassifierConf; SemiSupervisedClassifierConf;
           UnsupervisedClassifierConf] ->
  In x module_classes ->
  issubclass (PyClass n [base] d) x = issubclass base x.
Proof.
  intros Hb Hx. cbn [issubclass].
  assert (pyclass_eqb (PyClass n [base] d) x = false) as ->.
  { apply not_true_iff_false. rewrite pyclass_eqb_eq. intros <-.
    unfold module_classes in Hx. cbn [In] in Hb, Hx.
    destruct Hb as [<-|[<-|[<-|[]]]];
      destruct Hx as [Hx|[Hx|[Hx|[Hx|[Hx|[]]]]]];
      injection Hx as _ Hx _; discriminate Hx. }
  rewrite orb_false_r. reflexivity.
Qed.

Lemma leaf_get_classifier_type (base c : pyclass) :
  In base [SupervisedClassifierConf; SemiSupervisedClassifierConf;
           UnsupervisedClassifierConf] ->
  leaf_of base c = true ->
  get_classifier_type c =
  Ok (Some (if pyclass_eqb base SupervisedClassifierConf then supervised
            else if pyclass_eqb base SemiSupervisedClassifierConf
                 then semisupervised
                 else unsupervised)).
Proof.
  intros Hb Hl.
  destruct (leaf_of_inv _ _ Hl) as (n & d & m & p & fi & -> & _).
  unfold get_classifier_type.
  rewrite !(issubclass_leaf base _ n d Hb)
    by (unfold module_classes; cbn [In]; tauto).
  cbn [In] in Hb. destruct Hb as [<-|[<-|[<-|[]]]]; reflexivity.
Qed.

(** X12.  A leaf is classified as the paradigm of its base: the
    classification looks at ancestry only, never at what the leaf
    defines. *)
Theorem leaf_classifier_type (base c : pyclass) :
  In base [SupervisedClassifierConf; SemiSupervisedClassifierConf;
           UnsupervisedClassifierConf] ->
  leaf_of base c = true ->
  get_classifier_type c = get_classifier_type base /\
  get_classifier_type c =
  Ok (Some (if pyclass_eqb base SupervisedClassifierConf then supervised
            else if pyclass_eqb base SemiSupervisedClassifierConf
                 then semisupervised
                 else unsupervised)).
Proof.
  intros Hb Hl. pose proof (leaf_get_classifier_type base c Hb Hl) as Ht.
  split; [|exact Ht].
  rewrite Ht. cbn [In] in Hb.
  destruct Hb as [<-|[<-|[<-|[]]]]; reflexivity.
Qed.

Lemma leaf_classifier_type_witness :
  get_classifier_type IsolationForestConf
  = get_classifier_type UnsupervisedClassifierConf /\
  get_classifier_type IsolationForestConf = Ok (Some unsupervised).
Proof.
  refine (leaf_classifier_type UnsupervisedClassifierConf IsolationForestConf
            _ _).
  - cbn [In]. tauto.
  - vm_compute. reflexivity.
Defined.

Section ParserProperties.
Variable parser : Type.
Variable add_argument :
  parser -> string -> pyobj -> string -> string -> result parser.
Variable HyperparamConf_gen_parser :
  parser -> pyobj -> bool -> result parser.

(** X13.  The parser of a leaf that does not define [gen_parser] itself:
    the [--multiclass] option is added unless the leaf is unsupervised, and
    the hyperparameter parser is told that the model is supervised exactly
    when the leaf is classified as supervised, the flag that [from_args]
    computes (a semi-supervised leaf is not supervised). *)
Theorem leaf_gen_parser (base c : pyclass) (p : parser) (model_class : pyobj) :
  In base [SupervisedClassifierConf; SemiSupervisedClassifierConf;
           UnsupervisedClassifierConf] ->
  leaf_of base c = true ->
  dict_lookup "gen_parser" (class_dict c) = None ->
  class_gen_parser parser add_argument HyperparamConf_gen_parser c p model_class
  = (t <- get_classifier_type c ;;
     p' <- (if bool_decide (t = Some unsupervised) then Ok p
            else add_argument p "--multiclass" (Val (PyBool false))
                   "store_true" multiclass_help) ;;
     HyperparamConf_gen_parser p' model_class
       (bool_decide (t = Some supervised)))%result.
Proof.
  intros Hb Hl Hg.
  rewrite (leaf_get_classifier_type base c Hb Hl).
  destruct (leaf_of_inv _ _ Hl) as (n & d & m & q & fi & -> & _).
  cbn [class_dict] in Hg.
  assert (Hmod : In base module_classes).
  { unfold module_classes. cbn [In] in Hb |- *. tauto. }
  unfold class_gen_parser. rewrite (class_getattr_subclass _ _ _ _ Hmod), Hg.
  cbn [In] in Hb. destruct Hb as [<-|[<-|[<-|[]]]]; reflexivity.
Qed.
End ParserProperties.

Lemma leaf_gen_parser_witness :
  class_gen_parser (list string)
    (fun p name _ _ _ => Ok (p ++ [name]))
    (fun p _ is_supervised => Ok (p ++ [if is_supervised : bool then "cv" else "no-cv"]))
    LabelPropagationConf [] (ModelClass "LabelPropagation")
  = Ok ["--multiclass"; "no-cv"].
Proof.
  refine (leaf_gen_parser (list string)
            (fun p name _ _ _ => Ok (p ++ [name]))
            (fun p _ is_supervised =>
               Ok (p ++ [if is_supervised : bool then "cv" else "no-cv"]))
            SemiSupervisedClassifierConf LabelPropagationConf []
            (ModelClass "LabelPropagation") _ _ _).
  - cbn [In]. tauto.
  - vm_compute. reflexivity.
  - reflexivity.
Defined.

Section FactoryProperties.
Variable HyperparamConf_from_json :
  pyobj -> pyclass -> pyobj -> result pyobj.

(** X14.  A record that [from_json] loads has the three keys the factory
    reads: [__type__] holds a string under which a class is registered,
    [hyperparam_conf] holds hyperparameters that reload for that class, and
    [multiclass] is present (also when the class is unsupervised and has no
    use for it). *)
Theorem from_json_required_keys (self : ClassifierConfFactory) (obj : record)
    (logger : pyobj) (conf : pyinst) :
  from_json HyperparamConf_from_json self obj logger = Ok conf ->
  exists t c hp hyper_conf multiclass,
    obj !! "__type__" = Some (Val (PyStr t)) /\
    methods self !! t = Some c /\
    obj !! "hyperparam_conf" = Some hp /\
    HyperparamConf_from_json hp c logger = Ok hyper_conf /\
    obj !! "multiclass" = Some multiclass.
Proof.
  unfold from_json, getitem.
  destruct (obj !! "__type__") as [ty|]; [|discriminate]. cbn [result_bind].
  destruct ty as [[| | |t]| |]; cbn [methods_getitem result_bind];
    try discriminate.
  destruct (methods self !! t) as [c|] eqn:Ec; [|discriminate].
  cbn [result_bind].
  destruct (obj !! "hyperparam_conf") as [hp|]; [|discriminate].
  cbn [result_bind].
  destruct (HyperparamConf_from_json hp c logger) as [hc|] eqn:Eh;
    [|discriminate].
  cbn [result_bind].
  destruct (class_from_json c) as [f|]; [|discriminate]. cbn [result_bind].
  destruct (obj !! "multiclass") as [mc|]; [|discriminate].
  intros _. exists t, c, hp, hc, mc. repeat split; auto.
Qed.

(** X15.  The order in which [from_json] fails: a missing [__type__] is
    reported first, then an unregistered type (before the hyperparameters
    are looked at), then a missing [hyperparam_conf], then a failure of the
    hyperparameter reload, and a missing [multiclass] only after the
    hyperparameters have been reloaded. *)
Theorem from_json_error_order (self : ClassifierConfFactory) (obj : record)
    (logger : pyobj) :
  (obj !! "__type__" = None ->
   from_json HyperparamConf_from_json self obj logger
   = Raise (KeyError "__type__")) /\
  (forall t, obj !! "__type__" = Some (Val (PyStr t)) ->
     (methods self !! t = None ->
      from_json HyperparamConf_from_json self obj logger
      = Raise (KeyError t)) /\
     (forall c, methods self !! t = Some c ->
        (obj !! "hyperparam_conf" = None ->
         from_json HyperparamConf_from_json self obj logger
         = Raise (KeyError "hyperparam_conf")) /\
        (forall hp, obj !! "hyperparam_conf" = Some hp ->
           (forall e, HyperparamConf_from_json hp c logger = Raise e ->
              from_json HyperparamConf_from_json self obj logger = Raise e) /\
           (forall hyper_conf,
              HyperparamConf_from_json hp c logger = Ok hyper_conf ->
              class_getattr c "from_json" = Some LeafFromJson ->
              obj !! "multiclass" = None ->
              from_json HyperparamConf_from_json self obj logger
              = Raise (KeyError "multiclass"))))).
Proof.
  unfold from_json, getitem. split.
  - intros ->. reflexivity.
  - intros t ->. cbn [result_bind methods_getitem]. split.
    + intros ->. reflexivity.
    + intros c ->. cbn [result_bind]. split.
      * intros ->. reflexivity.
      * intros hp ->. cbn [result_bind]. split.
        -- intros e ->. reflexivity.
        -- intros hc -> Hf ->. unfold class_from_json. rewrite Hf.
           reflexivity.
Qed.
End FactoryProperties.

Lemma from_json_required_keys_witness :
  exists t c hp hyper_conf multiclass,
    ({[ "__type__" := Val (PyStr "IsolationForestConf");
        "hyperparam_conf" := Ext 7;
        "multiclass" := Val (PyBool false) ]} : record) !! "__type__"
      = Some (Val (PyStr t)) /\
    methods sample_registry !! t = Some c /\
    ({[ "__type__" := Val (PyStr "IsolationForestConf");
        "hyperparam_conf" := Ext 7;
        "multiclass" := Val (PyBool false) ]} : record) !! "hyperparam_conf"
      = Some hp /\
    sample_hyper_from_json hp c (Ext 2) = Ok hyper_conf /\
    ({[ "__type__" := Val (PyStr "IsolationForestConf");
        "hyperparam_conf" := Ext 7;
        "multiclass" := Val (PyBool false) ]} : record) !! "multiclass"
      = Some multiclass.
Proof.
  refine (from_json_required_keys sample_hyper_from_json sample_registry
            {[ "__type__" := Val (PyStr "IsolationForestConf");
               "hyperparam_conf" := Ext 7;
               "multiclass" := Val (PyBool false) ]} (Ext 2)
            (new IsolationForestConf (Val (PyBool false)) (Ext 7) (Ext 2)) _).
  vm_compute. reflexivity.
Defined.

Lemma from_json_error_order_witness :
  from_json sample_hyper_from_json sample_registry
    {[ "__type__" := Val (PyStr "IsolationForestConf");
       "hyperparam_conf" := Ext 7 ]} (Ext 2)
  = Raise (KeyError "multiclass").
Proof.
  refine (proj2 (proj2 (proj2 (proj2 (from_json_error_order
            sample_hyper_from_json sample_registry
            {[ "__type__" := Val (PyStr "IsolationForestConf");
               "hyperparam_conf" := Ext 7 ]} (Ext 2))
            "IsolationForestConf" _) IsolationForestConf _) (Ext 7) _)
            (Ext 7) _ _ _).
  - vm_compute. reflexivity.
  - vm_compute. reflexivity.
  - vm_compute. reflexivity.
  - reflexivity.
  - vm_compute. reflexivity.
  - vm_compute. reflexivity.
Defined.

(** ** Listing, command-line construction and the factory *)

Lemma get_classifier_type_ok (c : pyclass) :
  (exists t, get_classifier_type c = Ok t) <-> derives_from c ClassifierConf.
Proof.
  assert (Hp : forall x,
             In x [UnsupervisedClassifierConf; SemiSupervisedClassifierConf;
                   SupervisedClassifierConf] ->
             issubclass c x = true -> derives_from c ClassifierConf).
  { intros x Hx H. apply issubclass_derives in H.
    eapply derives_from_trans; [exact H|].
    apply paradigms_derive_from_ClassifierConf, Hx. }
  unfold get_classifier_type.
  destruct (issubclass c UnsupervisedClassifierConf) eqn:E1.
  { split; [intros _ | eauto]. eapply Hp; [|exact E1]. cbn [In]. auto. }
  destruct (issubclass c SemiSupervisedClassifierConf) eqn:E2.
  { split; [intros _ | eauto]. eapply Hp; [|exact E2]. cbn [In]. auto. }
  destruct (issubclass c SupervisedClassifierConf) eqn:E3.
  { split; [intros _ | eauto]. eapply Hp; [|exact E3]. cbn [In]. auto. }
  rewrite <- issubclass_derives.
  destruct (issubclass c ClassifierConf); split; eauto; try discriminate.
  intros [t Ht]. discriminate Ht.
Qed.

Lemma filter_result_ok {A} (p : A -> result bool) (l r : list A) :
  filter_result p l = Ok r ->
  Forall (fun x => exists b, p x = Ok b) l /\
  r = List.filter (fun x => match p x with Ok b => b | Raise _ => false end) l.
Proof.
  revert r. induction l as [|x l IH]; simpl; intros r.
  - intros [= <-]. auto.
  - destruct (p x) as [b|e] eqn:Ex; simpl; [|discriminate].
    destruct (filter_result p l) as [r'|e]; simpl; [|discriminate].
    intros [= <-]. destruct (IH r' eq_refl) as [Hall ->].
    split; [constructor; eauto|]. destruct b; reflexivity.
Qed.

Lemma filter_result_total {A} (p : A -> result bool) (l : list A) :
  Forall (fun x => exists b, p x = Ok b) l -> exists r, filter_result p l = Ok r.
Proof.
  induction 1 as [|x l [b Hb] _ [r Hr]]; simpl; [eauto|].
  rewrite Hb, Hr. simpl. eauto.
Qed.

Section Listing.
Variable ConfFactory_get_methods : ClassifierConfFactory -> list string.
Variable ConfFactory_get_class :
  ClassifierConfFactory -> string -> result pyclass.

(** X16.  Listing the methods of one paradigm examines every registered
    name: it succeeds exactly when every name resolves to a class that
    derives from [ClassifierConf], for whichever paradigm is asked.  When it
    succeeds, the list is the sublist of the names, in their order, whose
    class is classified as that paradigm; a classifier configuration of no
    paradigm is in none of the three lists. *)
Theorem get_methods_succeeds_iff (self : ClassifierConfFactory)
    (t : ClassifierType) :
  ((exists l, get_methods ConfFactory_get_methods ConfFactory_get_class
                self (Some t) = Ok l) <->
   Forall (fun m => exists c, ConfFactory_get_class self m = Ok c /\
                              derives_from c ClassifierConf)
          (ConfFactory_get_methods self)) /\
  (forall l, get_methods ConfFactory_get_methods ConfFactory_get_class
               self (Some t) = Ok l ->
     l = List.filter
           (fun m => bool_decide
                       (paradigm_of (ConfFactory_get_class self) m = Some t))
           (ConfFactory_get_methods self)).
Proof.
  unfold get_methods.
  set (p := fun c : string =>
              (class_ <- ConfFactory_get_class self c ;;
               t' <- get_classifier_type class_ ;;
               Ok (bool_decide (t' = Some t)))%result).
  assert (Hp : forall m,
             (exists b, p m = Ok b) <->
             exists c, ConfFactory_get_class self m = Ok c /\
                       derives_from c ClassifierConf).
  { intros m. unfold p.
    destruct (ConfFactory_get_class self m) as [c|e]; cbn [result_bind].
    - split.
      + intros [b Hb]. exists c. split; [reflexivity|].
        apply get_classifier_type_ok.
        destruct (get_classifier_type c) as [t'|]; [eauto | discriminate].
      + intros (c' & [= <-] & Hd). apply get_classifier_type_ok in Hd as [t' ->].
        cbn [result_bind]. eauto.
    - split; [intros [b Hb]; discriminate | intros (c & Hc & _); discriminate]. }
  split.
  - split.
    + intros [l Hl]. apply filter_result_ok in Hl as [Hall _].
      eapply Forall_impl; [exact Hall|]. intros m Hm. apply Hp, Hm.
    + intros Hall. apply filter_result_total.
      eapply Forall_impl; [exact Hall|]. intros m Hm. apply Hp, Hm.
  - intros l Hl. apply filter_result_ok in Hl as [_ ->].
    apply List.filter_ext. intros m. unfold p, paradigm_of.
    destruct (ConfFactory_get_class self m) as [c|e]; cbn [result_bind].
    + destruct (get_classifier_type c) as [t'|e]; cbn [result_bind];
        reflexivity.
    + reflexivity.
Qed.
End Listing.

Lemma get_methods_succeeds_iff_witness :
  get_methods sample_get_methods sample_get_class sample_registry
    (Some semisupervised)
  = Ok (List.filter
          (fun m => bool_decide
                      (paradigm_of (sample_get_class sample_registry) m
                       = Some semisupervised))
          (sample_get_methods sample_registry)).
Proof.
  refine (f_equal Ok (proj2 (get_methods_succeeds_iff sample_get_methods
            sample_get_class sample_registry semisupervised)
            ["LabelPropagation"] _)).
  vm_compute. reflexivity.
Defined.

Section FromArgs.
Variables HyperparamConf_from_args HyperparamConf_from_args' :
  record -> pyclass -> bool -> pyobj -> result pyobj.

(** X17.  What [from_args] asks of the hyperparameter subsystem: nothing at
    all for the method [AlreadyTrained]; for a leaf of a paradigm, one call
    on the parsed arguments, the resolved class and a flag that is true
    exactly for a supervised leaf.  Two hyperparameter subsystems that agree
    on that call give the same configuration. *)
Theorem from_args_hyperparameters (self : ClassifierConfFactory)
    (method : string) (args : record) (logger : pyobj) :
  from_args HyperparamConf_from_args self "AlreadyTrained" args logger
  = from_args HyperparamConf_from_args' self "AlreadyTrained" args logger /\
  (forall base c,
     In base [SupervisedClassifierConf; SemiSupervisedClassifierConf;
              UnsupervisedClassifierConf] ->
     leaf_of base c = true ->
     methods self !! (method +:+ "Conf") = Some c ->
     HyperparamConf_from_args args c
       (pyclass_eqb base SupervisedClassifierConf) logger
     = HyperparamConf_from_args' args c
         (pyclass_eqb base SupervisedClassifierConf) logger ->
     from_args HyperparamConf_from_args self method args logger
     = from_args HyperparamConf_from_args' self method args logger).
Proof.
  split; [reflexivity|].
  intros base c Hb Hl Hc Heq. unfold from_args, methods_getitem.
  rewrite Hc. cbn [result_bind].
  destruct (negb (String.eqb method "AlreadyTrained")); [|reflexivity].
  rewrite (leaf_get_classifier_type base c Hb Hl). cbn [result_bind].
  replace (bool_decide (_ = Some supervised))
    with (pyclass_eqb base SupervisedClassifierConf).
  - rewrite Heq. reflexivity.
  - cbn [In] in Hb. destruct Hb as [<-|[<-|[<-|[]]]]; reflexivity.
Qed.

(** X18.  How [from_args] fails before anything is built: a method whose
    name followed by [Conf] is not registered is a [KeyError] on that key,
    and, except for [AlreadyTrained], a registered class that does not
    derive from [ClassifierConf] is a [ValueError] naming the class, raised
    before the hyperparameters are parsed. *)
Theorem from_args_errors (self : ClassifierConfFactory)
    (method : string) (args : record) (logger : pyobj) :
  (methods self !! (method +:+ "Conf") = None ->
   from_args HyperparamConf_from_args self method args logger
   = Raise (KeyError (method +:+ "Conf"))) /\
  (forall c,
     methods self !! (method +:+ "Conf") = Some c ->
     method <> "AlreadyTrained" ->
     ~ derives_from c ClassifierConf ->
     from_args HyperparamConf_from_args self method args logger
     = Raise (ValueError
                (class_name c +:+ " is not a classifier configuration."))).
Proof.
  unfold from_args, methods_getitem. split.
  - intros ->. reflexivity.
  - intros c -> Hm Hd. cbn [result_bind].
    apply String.eqb_neq in Hm. rewrite Hm. cbn [negb].
    assert (Hn : forall x, derives_from x ClassifierConf ->
                           issubclass c x = false).
    { intros x Hx. apply not_true_iff_false. rewrite issubclass_derives.
      intros H. apply Hd. eapply derives_from_trans; eassumption. }
    unfold get_classifier_type.
    rewrite !Hn; [reflexivity | apply derives_self | ..];
      apply paradigms_derive_from_ClassifierConf; cbn [In]; auto.
Qed.
End FromArgs.

Lemma from_args_hyperparameters_witness :
  from_args sample_hyper_from_args sample_registry "LogisticRegression"
    {[ "multiclass" := Val (PyBool true) ]} (Ext 2)
  = from_args
      (fun args c is_supervised logger =>
         if is_supervised then Ok (Ext 7) else Raise (KeyError "num_folds"))
      sample_registry "LogisticRegression"
      {[ "multiclass" := Val (PyBool true) ]} (Ext 2).
Proof.
  refine (proj2 (from_args_hyperparameters sample_hyper_from_args
            (fun args c is_supervised logger =>
               if is_supervised then Ok (Ext 7)
               else Raise (KeyError "num_folds"))
            sample_registry "LogisticRegression"
            {[ "multiclass" := Val (PyBool true) ]} (Ext 2))
            SupervisedClassifierConf LogisticRegressionConf _ _ _ _).
  - cbn [In]. tauto.
  - vm_compute. reflexivity.
  - vm_compute. reflexivity.
  - reflexivity.
Defined.

Lemma from_args_errors_witness :
  from_args sample_hyper_from_args
    {| methods := <["UnrelatedConf" := Unrelated]> ∅ |} "Unrelated" ∅ (Ext 2)
  = Raise (ValueError "Unrelated is not a classifier configuration.").
Proof.
  refine (proj2 (from_args_errors sample_hyper_from_args
            {| methods := <["UnrelatedConf" := Unrelated]> ∅ |}
            "Unrelated" ∅ (Ext 2)) Unrelated _ _ _).
  - vm_compute. reflexivity.
  - discriminate.
  - intros H. apply issubclass_derives in H. vm_compute in H. discriminate H.
Defined.

Section Singleton.
Variable HyperparamConf_get_default :
  pyobj -> pyobj -> pyobj -> pyclass -> pyobj -> result pyobj.
Variable ConfFactory_get_class :
  ClassifierConfFactory -> string -> result pyclass.

(** X19.  The module keeps one factory: [get_factory] creates it (with an
    empty registry) only while the module variable is unset, returns the
    stored one afterwards, and never replaces it; [get_default] leaves the
    variable set to the factory it used, whether or not it could build the
    configuration. *)
Theorem get_factory_singleton
    (classifier_conf_factory : option ClassifierConfFactory)
    (model_class : string) (num_folds n_jobs multiclass logger : pyobj) :
  exists f,
    get_factory classifier_conf_factory = (f, Some f) /\
    get_factory (Some f) = (f, Some f) /\
    (forall g, classifier_conf_factory = Some g -> f = g) /\
    (classifier_conf_factory = None -> methods f = ∅) /\
    snd (get_default HyperparamConf_get_default ConfFactory_get_class
           classifier_conf_factory model_class num_folds n_jobs multiclass
           logger) = Some f.
Proof.
  unfold get_default.
  destruct classifier_conf_factory as [g|]; simpl.
  - exists g. repeat split; congruence.
  - eexists. repeat split; try discriminate; reflexivity.
Qed.
End Singleton.

Lemma get_factory_singleton_witness :
  exists f,
    get_factory (Some sample_registry) = (f, Some f) /\
    get_factory (Some f) = (f, Some f) /\
    (forall g, Some sample_registry = Some g -> f = g) /\
    (Some sample_registry = None -> methods f = ∅) /\
    snd (get_default sample_hyper_get_default sample_get_class
           (Some sample_registry) "LogisticRegression"
           (Val (PyInt 4)) (Val (PyInt 1)) (Val (PyBool false)) (Ext 2))
    = Some f.
Proof.
  exact (get_factory_singleton sample_hyper_get_default sample_get_class
           (Some sample_registry) "LogisticRegression"
           (Val (PyInt 4)) (Val (PyInt 1)) (Val (PyBool false)) (Ext 2)).
Defined.

(** X20.  Where [scoring_function] comes from in a direct subclass of a
    paradigm that defines none itself: from [UnsupervisedClassifierConf]
    when that is the base, which is the one paradigm that overrides it, and
    from the abstract declaration of [ClassifierConf] for the two other
    paradigms.  Either body returns [None]. *)
Theorem scoring_function_resolution (base : pyclass) (n : string)
    (d : list (string * pyfunc)) (self : pyinst) :
  In base [SupervisedClassifierConf; SemiSupervisedClassifierConf;
           UnsupervisedClassifierConf] ->
  inst_class self = PyClass n [base] d ->
  dict_lookup "scoring_function" d = None ->
  bound self "scoring_function"
  = Ok (Src (if pyclass_eqb base UnsupervisedClassifierConf
             then In_UnsupervisedClassifierConf
             else In_ClassifierConf)) /\
  call_abstract self "scoring_function" = Ok (Val PyNone).
Proof.
  intros Hb Hc Hd.
  assert (Hmod : In base module_classes).
  { unfold module_classes. cbn [In] in Hb |- *. tauto. }
  unfold call_abstract, bound. rewrite Hc.
  rewrite (class_getattr_subclass _ _ _ _ Hmod), Hd.
  cbn [In] in Hb. destruct Hb as [<-|[<-|[<-|[]]]]; split; reflexivity.
Qed.

Lemma scoring_function_resolution_witness :
  bound sample_unsupervised "scoring_function"
  = Ok (Src In_UnsupervisedClassifierConf) /\
  call_abstract sample_unsupervised "scoring_function" = Ok (Val PyNone).
Proof.
  refine (scoring_function_resolution UnsupervisedClassifierConf
            "IsolationForestConf" _ sample_unsupervised _ _ _).
  - cbn [In]. tauto.
  - reflexivity.
  - reflexivity.
Defined.
